(** * Atom of Thoughts: single-instance coordination

    A shallow embedding of the TypeScript sources
      - [src/port-checker.ts]                       (module [PortChecker])
      - [src/websocket-server.ts]                   (module [WebSocketServer])
      - [src/visualization-server.ts], as listed after the
        implementation summary                      (module [VisualizationServer])
      - [src/launcher.ts]                           (module [Launcher])
    followed by the properties established about them.

    Conventions.  A port, a delay and a loop counter are integers [Z];
    the bound [maxAttempts] of the polling loop is a [JS.Number], which
    also has the fractions, the infinities and [NaN]; a [string] is a
    [string]; an object used as a dictionary is the [gmap] of its own
    properties, written through [assign]; an array is a [list].
    Effects (console output, sockets, child processes, the process
    exit) are threaded through an explicit world by the monad of module
    [JS]. *)

From Stdlib Require Import ZArith QArith_base.
From stdpp Require Import gmap strings list fin_maps pretty.

Local Open Scope string_scope.
Local Open Scope list_scope.
Local Open Scope Z_scope.

(* ===================================================================== *)
(** * 1. Control flow of the host language                                *)
(* ===================================================================== *)

Module JS.

(** The exceptions that occur in the modelled code.  [ErrnoException]
    carries the optional [code] field tested by the port prober. *)
Inductive Error : Type :=
| TypeError (msg : string)
| ErrnoException (code : option string)
| OtherError (msg : string).

(** How running a piece of code from world [w] can end: it returns a
    value, it throws, it ends the whole process ([process.exit]), or
    it does not settle within the fuel the model was given. *)
Inductive Outcome (W A : Type) : Type :=
| Returns (a : A) (w : W)
| Throws (e : Error) (w : W)
| Exits (code : Z) (w : W)
| Pending.
Arguments Returns {W A} a w.
Arguments Throws {W A} e w.
Arguments Exits {W A} code w.
Arguments Pending {W A}.

Definition M (W A : Type) : Type := W -> Outcome W A.

(** A JavaScript [number] used as a bound: a finite value (every finite
    double is a rational), an infinity, or [NaN]. *)
Inductive Number : Type :=
| finite (q : Q)
| plus_infinity
| minus_infinity
| NaN.

Definition of_Z (n : Z) : Number := finite (inject_Z n).

(** [n < x] for an integer [n]; a comparison with [NaN] is false. *)
Definition int_lt (n : Z) (x : Number) : bool :=
  match x with
  | finite q => (n * Zpos (Qden q) <? Qnum q)%Z
  | plus_infinity => true
  | minus_infinity => false
  | NaN => false
  end.

(** [n++] on a counter that starts at 0: exact up to [2^53]; from there
    on [n + 1] is not a double and rounds back to [n]. *)
Definition incr (n : Z) : Z :=
  if (n <? 2 ^ 53)%Z then (n + 1)%Z else n.

Section Monad.
Context {W : Type}.

Definition ret {A} (a : A) : M W A := fun w => Returns a w.

Definition bind {A B} (m : M W A) (k : A -> M W B) : M W B :=
  fun w =>
    match m w with
    | Returns a w' => k a w'
    | Throws e w' => Throws e w'
    | Exits c w' => Exits c w'
    | Pending => Pending
    end.

Definition throw {A} (e : Error) : M W A := fun w => Throws e w.

(** [try { body } catch (err) { handler err }]: only a thrown
    exception is caught; the effects of [body] up to the throw
    stay. *)
Definition try_catch {A} (body : M W A) (handler : Error -> M W A) : M W A :=
  fun w =>
    match body w with
    | Throws e w' => handler e w'
    | o => o
    end.

Definition gets {A} (f : W -> A) : M W A := fun w => Returns (f w) w.
Definition modify (f : W -> W) : M W unit := fun w => Returns tt (f w).

(** [arr.forEach(f)] *)
Fixpoint forEach {A} (l : list A) (f : A -> M W unit) : M W unit :=
  match l with
  | [] => ret tt
  | x :: l' => bind (f x) (fun _ => forEach l' f)
  end.
End Monad.

Module Notations.
Notation "'let*' x ':=' m 'in' k" := (bind m (fun x => k))
  (at level 10, x name, m at level 100, k at level 200).
Notation "m ';;;' k" := (bind m (fun _ => k))
  (at level 100, k at level 200, right associativity).
End Notations.

End JS.

(* ===================================================================== *)
(** * 2. The runtime seen by the code                                     *)
(* ===================================================================== *)

Module Node.
Import JS.

(** What a [net.Server] emits after [server.listen(port)]. *)
Inductive ListenResult : Type :=
| listening
| listen_error (code : option string).

(** What a [net.Socket] emits after [client.connect(port, host)]:
    ['connect'], ['error'], or neither before the 1000 ms timer. *)
Inductive ConnectResult : Type :=
| connect_ok
| connect_error
| connect_silent.

(** [child.kill()]: returns [true] and sets [child.killed] when the
    signal was delivered, returns [false], or throws. *)
Inductive KillResult : Type :=
| kill_true
| kill_false
| kill_throws (e : Error).

(** The interactions of a process with the outside, in the order in
    which they happen.  A call is logged with the answer it got where
    a later step depends on it. *)
Inductive Effect : Type :=
| console_error (line : string)
| net_listen (port : Z)
| net_close (port : Z)
| net_connect (port : Z) (host : string)
| net_destroy (port : Z)
| timer (ms : Z)
| ws_listen (port : Z)
| ws_close
| ws_send (client : nat) (message : string)
| child_fork (modulePath : string) (args : list string)
| child_kill (child : nat) (result : KillResult).

Definition is_listen (e : Effect) : bool :=
  match e with net_listen _ => true | _ => false end.
Definition is_connect (e : Effect) : bool :=
  match e with net_connect _ _ => true | _ => false end.
Definition is_fork (e : Effect) : bool :=
  match e with child_fork _ _ => true | _ => false end.
Definition is_kill (e : Effect) : bool :=
  match e with child_kill _ _ => true | _ => false end.
Definition is_ws_listen (e : Effect) : bool :=
  match e with ws_listen _ => true | _ => false end.

(** The ports [listen] and [connect] accept: the integers from 0 to
    65535.  For any other port both calls throw at once, before
    anything is asked of the system: a [RangeError] with the code
    [ERR_SOCKET_BAD_PORT], of which the code is kept. *)
Definition valid_port (port : Z) : bool :=
  (0 <=? port) && (port <=? 65535).

Definition bad_port : Error := ErrnoException (Some "ERR_SOCKET_BAD_PORT").

(** How many effects of one kind a trace holds. *)
Definition count (k : Effect -> bool) (t : list Effect) : nat :=
  length (List.filter k t).

(** The outside: the answer to the [n]-th call of each kind ([n]
    counts the earlier calls of that kind in the trace).  [on_fork]
    and [on_ws] say whether the call throws. *)
Record Env : Type := mkEnv {
  on_listen : nat -> Z -> ListenResult;
  on_connect : nat -> Z -> ConnectResult;
  on_kill : nat -> nat -> KillResult;
  on_fork : nat -> string -> option Error;
  on_ws : nat -> Z -> option Error
}.

(** A process: the module's own state [H] and the trace so far. *)
Record World (H : Type) : Type := mkWorld {
  heap : H;
  trace : list Effect
}.
Arguments mkWorld {H} heap trace.
Arguments heap {H} w.
Arguments trace {H} w.

Section Primitives.
Context {H : Type}.

Definition effect (e : Effect) : M (World H) unit :=
  modify (fun w => mkWorld (heap w) (trace w ++ [e])).

Definition update (f : H -> H) : M (World H) unit :=
  modify (fun w => mkWorld (f (heap w)) (trace w)).

(** [console.error(...)]; the colours of [chalk] are left out. *)
Definition log (line : string) : M (World H) unit :=
  effect (console_error line).
End Primitives.

Definition show_error (e : Error) : string :=
  match e with
  | TypeError msg => "TypeError: " +:+ msg
  | ErrnoException (Some code) => "Error: " +:+ code
  | ErrnoException None => "Error"
  | OtherError msg => "Error: " +:+ msg
  end.

End Node.

(* ===================================================================== *)
(** * 3. port-checker.ts                                                  *)
(* ===================================================================== *)

Module PortChecker.
Import JS JS.Notations Node.

Section WithEnv.
Context {H : Type} (env : Env).

(** [isPortAvailable(port)].  The promise is resolved by the
    ['error'] handler ([false] for [EADDRINUSE], [true] otherwise)
    or, after ['listening'], by the callback of [server.close].  When
    [server.listen(port)] throws, inside the executor of the promise,
    the promise is rejected. *)
Definition isPortAvailable (port : Z) : M (World H) bool :=
  if negb (valid_port port) then throw bad_port
  else
    let* t := gets trace in
    effect (net_listen port) ;;;
    match on_listen env (count is_listen t) port with
    | listen_error code =>
        if bool_decide (code = Some "EADDRINUSE") then ret false else ret true
    | listening =>
        effect (net_close port) ;;;
        ret true
    end.

(** [canConnectToPort(port)].  Resolved by ['connect'] ([true]), by
    ['error'] ([false]) or by the 1000 ms timer ([false]); each of
    these handlers destroys the socket.  The timer firing after the
    promise is settled changes nothing and is left out.  When
    [client.connect(port, host)] throws, inside the executor of the
    promise, the promise is rejected: no handler runs, the timer is
    never set and the socket is not destroyed. *)
Definition canConnectToPort (port : Z) : M (World H) bool :=
  if negb (valid_port port) then throw bad_port
  else
    let* t := gets trace in
    effect (net_connect port "127.0.0.1") ;;;
    match on_connect env (count is_connect t) port with
    | connect_ok => effect (net_destroy port) ;;; ret true
    | connect_error => effect (net_destroy port) ;;; ret false
    | connect_silent => effect (timer 1000) ;;; effect (net_destroy port) ;;; ret false
    end.

(** The [for] loop of [waitForServerOnPort], from the test
    [attempt < maxAttempts] on; [fuel] bounds the iterations the
    model may take. *)
Fixpoint wait_loop (fuel : nat) (port : Z) (maxAttempts : Number)
    (intervalMs attempt : Z) : M (World H) bool :=
  match fuel with
  | O => fun _ => Pending
  | S fuel' =>
      if int_lt attempt maxAttempts then
        let* canConnect := canConnectToPort port in
        if canConnect : bool then
          log ("Server detected on port " +:+ pretty port) ;;;
          ret true
        else
          effect (timer intervalMs) ;;;
          wait_loop fuel' port maxAttempts intervalMs (incr attempt)
      else
        log ("Timed out waiting for server on port " +:+ pretty port) ;;;
        ret false
  end.

(** [waitForServerOnPort(port, maxAttempts = 10, intervalMs = 500)] *)
Definition waitForServerOnPort (fuel : nat) (port : Z)
    (maxAttempts : option Number) (intervalMs : option Z) : M (World H) bool :=
  let maxAttempts := default (of_Z 10) maxAttempts in
  let intervalMs := default 500 intervalMs in
  log ("Waiting for server on port " +:+ pretty port +:+ "...") ;;;
  wait_loop fuel port maxAttempts intervalMs 0.
End WithEnv.

(** The effects of one connection attempt that got the answer [r]. *)
Definition attempt_effects (port : Z) (r : ConnectResult) : list Effect :=
  match r with
  | connect_silent => [net_connect port "127.0.0.1"; timer 1000; net_destroy port]
  | _ => [net_connect port "127.0.0.1"; net_destroy port]
  end.


End PortChecker.

(* ===================================================================== *)
(** * 4. websocket-server.ts                                              *)
(* ===================================================================== *)

Module WebSocketServer.
Import JS JS.Notations Node.

(** A [ws] server object: the events that have a handler. *)
Record WSServer : Type := mkWSServer {
  handlers : list string
}.

(** A connected visualization client. *)
Record Client : Type := mkClient {
  client_id : nat;
  readyState : Z
}.

(** [class WebSocketServer]; [wss] is declared [WSServer] but holds
    [null] until [init] assigns it. *)
Record Instance : Type := mkInstance {
  wss : option WSServer;
  clients : list Client;
  port : Z
}.

Definition set_wss (v : option WSServer) (this : Instance) : Instance :=
  mkInstance v (clients this) (port this).

Section Methods.
Context (env : Env).

(** [this.wss.on(event, handler)]: a method call on [this.wss],
    which throws a [TypeError] when the field is [null]. *)
Definition wss_on (event : string) : M (World Instance) unit :=
  let* this := gets heap in
  match wss this with
  | None =>
      throw (TypeError "Cannot read properties of null (reading 'on')")
  | Some server =>
      update (set_wss (Some (mkWSServer (handlers server ++ [event]))))
  end.

(** Running the body of a method on the object [this]: the caller gets
    the result and the object as the body left it. *)
Definition call {A} (this : Instance) (body : M (World Instance) A)
  : M (World unit) (A * Instance) :=
  fun w =>
    match body (mkWorld this (trace w)) with
    | Returns a w' => Returns (a, heap w') (mkWorld tt (trace w'))
    | Throws e w' => Throws e (mkWorld tt (trace w'))
    | Exits c w' => Exits c (mkWorld tt (trace w'))
    | Pending => Pending
    end.

(** [constructor(port: number = 8090)], the body. *)
Definition constructor (port : option Z) : M (World Instance) unit :=
  update (fun this => mkInstance (wss this) (clients this) (default 8090 port)) ;;;
  update (set_wss None) ;;;
  wss_on "connection" ;;;
  wss_on "listening" ;;;
  wss_on "error".

(** [new WebSocketServer(port)]: the object is allocated with its field
    initialiser run ([clients = new Set()]; [wss] and [port] are not
    assigned yet, the record holds [None] and [0] for them), then the
    constructor body runs on it; the caller gets the object only if the
    body returns. *)
Definition new_WebSocketServer (port : option Z) : M (World unit) Instance :=
  let* r := call (mkInstance None [] 0) (constructor port) in
  ret (snd r).

(** [new WSServer({ port })] *)
Definition new_WSServer (port : Z) : M (World Instance) WSServer :=
  let* t := gets trace in
  effect (ws_listen port) ;;;
  match on_ws env (count is_ws_listen t) port with
  | Some e => throw e
  | None => ret (mkWSServer [])
  end.

(** [init()] *)
Definition init : M (World Instance) bool :=
  try_catch
    (let* this := gets heap in
     let* portAvailable := PortChecker.isPortAvailable env (port this) in
     if negb portAvailable then
       log ("WebSocket server port " +:+ pretty (port this) +:+ " is already in use.") ;;;
       log "This likely means another MCP server is already running." ;;;
       log "Will attempt to reuse the existing WebSocket server." ;;;
       ret false
     else
       let* server := new_WSServer (port this) in
       update (set_wss (Some server)) ;;;
       wss_on "connection" ;;;
       wss_on "listening" ;;;
       wss_on "error" ;;;
       ret true)
    (fun error =>
       log ("Failed to initialize WebSocket server: " +:+ show_error error) ;;;
       ret false).




(** [sendMessage(type, data)]; the JSON text is kept abstract as
    the pair of its two fields. *)
Definition sendMessage (type data : string) : M (World Instance) unit :=
  let* this := gets heap in
  if bool_decide (length (clients this) = 0%nat) then ret tt
  else
    let message := "{type:" +:+ type +:+ ",data:" +:+ data +:+ "}" in
    forEach (clients this) (fun client =>
      if bool_decide (readyState client = 1)
      then effect (ws_send (client_id client) message)
      else ret tt).

(** [close()] *)
Definition close : M (World Instance) unit :=
  let* this := gets heap in
  match wss this with
  | Some _ => effect ws_close
  | None => ret tt
  end.
End Methods.

End WebSocketServer.

(* ===================================================================== *)
(** * 5. visualization-server.ts                                          *)
(* ===================================================================== *)

Module VisualizationServer.

Inductive AtomType : Type :=
| premise | reasoning | hypothesis | verification | conclusion.

(** [interface Atom].  [depth?: number] is optional. *)
Record Atom : Type := mkAtom {
  atomId : string;
  content : string;
  atomType : AtomType;
  dependencies : list string;
  confidence : Q;
  isVerified : bool;
  depth : option Z;
  created : Z
}.

(** The payload [{ atoms: Object.values(this.atoms), atomOrder }] of
    the [/api/atoms] response and of the ['atoms-update'] event. *)
Record Snapshot : Type := mkSnapshot {
  snap_atoms : list Atom;
  snap_atomOrder : list string
}.

(** The socket.io events the server emits. *)
Inductive Message : Type :=
| atoms_update (data : Snapshot)
| atom_update (atom : Atom)
| atoms_order (newOrder : list string).

(** [class VisualizationServer].  [io] stands for the socket.io
    server: the sockets currently connected, each with the messages
    emitted to it so far, oldest first. *)
Record Server : Type := mkServer {
  port : Z;
  atoms : gmap string Atom;
  atomOrder : list string;
  io : gmap nat (list Message)
}.

Definition set_atoms (f : gmap string Atom -> gmap string Atom) (s : Server) : Server :=
  mkServer (port s) (f (atoms s)) (atomOrder s) (io s).
Definition set_atomOrder (f : list string -> list string) (s : Server) : Server :=
  mkServer (port s) (atoms s) (f (atomOrder s)) (io s).
Definition set_io (f : gmap nat (list Message) -> gmap nat (list Message)) (s : Server) : Server :=
  mkServer (port s) (atoms s) (atomOrder s) (f (io s)).

(** [constructor(port = 3000)]: both fields start empty, nobody is
    connected. *)
Definition constructor (port : option Z) : Server :=
  mkServer (default 3000 port) ∅ [] ∅.

(** [obj[key] = atom] on an object created as [{}]: an own property is
    created or overwritten, except for the key ["__proto__"], which
    [Object.prototype] defines as an accessor: its setter makes [atom]
    the prototype of [obj] and no own property is created.  The
    prototype is not part of the model: the code modelled here reads
    the object through [Object.values] only, which lists own properties
    only. *)
Definition assign (key : string) (atom : Atom) (obj : gmap string Atom)
  : gmap string Atom :=
  if String.eqb key "__proto__" then obj else <[key := atom]> obj.

(** [Object.values(o)]: the values of the own properties.  The order
    in which JavaScript lists them is not modelled; the properties
    below speak of the array up to permutation. *)
Definition Object_values (o : gmap string Atom) : list Atom :=
  (map_to_list o).*2.

(** [arr.includes(x)] on an array of strings. *)
Fixpoint includes (arr : list string) (x : string) : bool :=
  match arr with
  | [] => false
  | y :: arr' => if String.eqb y x then true else includes arr' x
  end.

(** [this.io.emit(event, payload)]: to every connected socket. *)
Definition io_emit (m : Message) (s : Server) : Server :=
  set_io (fmap (fun sent => sent ++ [m])) s.

(** [socket.emit(event, payload)]: to one socket. *)
Definition socket_emit (socket : nat) (m : Message) (s : Server) : Server :=
  set_io (alter (fun sent => sent ++ [m]) socket) s.

Definition snapshot (s : Server) : Snapshot :=
  mkSnapshot (Object_values (atoms s)) (atomOrder s).

(** [setupRoutes]: the handler of [GET /api/atoms]; the body of the
    JSON response. *)
Definition api_atoms (s : Server) : Snapshot := snapshot s.

(** [setupSocketIO]: the ['connection'] handler. *)
Definition on_connection (socket : nat) (s : Server) : Server :=
  socket_emit socket (atoms_update (snapshot s)) s.

(** [updateAtom(atom)] *)
Definition updateAtom (atom : Atom) (s : Server) : Server :=
  let s := set_atoms (assign (atomId atom) atom) s in
  let s := if negb (includes (atomOrder s) (atomId atom))
           then set_atomOrder (fun o => o ++ [atomId atom]) s
           else s in
  let s := io_emit (atom_update atom) s in
  io_emit (atoms_order (atomOrder s)) s.

(** What reaches the server from outside: a producer publishing an
    atom, an observer connecting (socket.io registers the socket,
    then runs the ['connection'] handler) or going away. *)
Inductive Request : Type :=
| Publish (atom : Atom)
| Connect (socket : nat)
| Disconnect (socket : nat).

Definition handle (s : Server) (r : Request) : Server :=
  match r with
  | Publish atom => updateAtom atom s
  | Connect socket => on_connection socket (set_io (insert socket []) s)
  | Disconnect socket => set_io (delete socket) s
  end.

Definition run (rs : list Request) (s : Server) : Server :=
  foldl handle s rs.

(** The atoms published by a run, oldest first. *)
Definition published (rs : list Request) : list Atom :=
  omap (fun r => match r with Publish a => Some a | _ => None end) rs.

(** What every state of the server satisfies: the order has no
    duplicate, every key of the map is in the order, every id of the
    order other than ["__proto__"] is a key of the map, and
    ["__proto__"] is never a key. *)
Definition graph_inv (s : Server) : Prop :=
  NoDup (atomOrder s) /\
  (forall k, is_Some (atoms s !! k) -> k ∈ atomOrder s) /\
  (forall k, k ∈ atomOrder s -> k <> "__proto__" -> is_Some (atoms s !! k)) /\
  atoms s !! "__proto__" = None.

(** The script of the page the server generates ([generateHTML]):
    the observer's copy of the graph and its three socket handlers. *)
Module Page.
Record Client : Type := mkClient {
  atoms : gmap string Atom;
  atomOrder : list string
}.

Definition socket_on (m : Message) (c : Client) : Client :=
  match m with
  | atoms_update data =>
      mkClient (foldl (fun obj atom => assign (atomId atom) atom obj)
                      (atoms c) (snap_atoms data))
               (snap_atomOrder data)
  | atom_update atom =>
      mkClient (assign (atomId atom) atom (atoms c)) (atomOrder c)
  | atoms_order newOrder =>
      mkClient (atoms c) newOrder
  end.
End Page.

End VisualizationServer.

(* ===================================================================== *)
(** * 6. launcher.ts                                                      *)
(* ===================================================================== *)

Module Launcher.
Import JS JS.Notations Node.

(** [interface ProcessInfo]; [process] is the handle of the child. *)
Record ProcessInfo : Type := mkProcessInfo {
  process : nat;
  name : string
}.

(** [interface ArgvOptions] *)
Record ArgvOptions : Type := mkArgv {
  visualize : bool;
  port : Z
}.

(** The two pairs of ['error'] / ['exit'] handlers the launcher
    attaches to a child. *)
Inductive Handlers : Type :=
| mcpProcess_on
| visualizerProcess_on.

(** The module state: the array [processes], the handlers attached
    to each child, and the [_exiting] flag of [process]. *)
Record Heap : Type := mkHeap {
  processes : list ProcessInfo;
  listeners : gmap nat Handlers;
  exiting : bool
}.

Definition initial : World Heap := mkWorld (mkHeap [] ∅ false) [].

Definition push (p : ProcessInfo) (h : Heap) : Heap :=
  mkHeap (processes h ++ [p]) (listeners h) (exiting h).
Definition attach (child : nat) (on : Handlers) (h : Heap) : Heap :=
  mkHeap (processes h) (<[child := on]> (listeners h)) (exiting h).
Definition set_exiting (h : Heap) : Heap :=
  mkHeap (processes h) (listeners h) true.

(** [child.killed]: some earlier [child.kill()] returned [true]. *)
Definition killed (t : list Effect) (child : nat) : bool :=
  existsb (fun e => match e with
                    | child_kill c kill_true => Nat.eqb c child
                    | _ => false
                    end) t.

Definition show_code (code : option Z) : string :=
  match code with Some c => pretty c | None => "null" end.
Definition show_signal (signal : option string) : string :=
  match signal with Some s => s | None => "null" end.

(** What the event loop hands to the launcher. *)
Inductive Event : Type :=
| SIGINT
| SIGTERM
| child_error (child : nat) (err : Error)
| child_exit (child : nat) (code : option Z) (signal : option string).

Section WithEnv.
Context (env : Env) (argv : ArgvOptions).

(** [fork(modulePath, args, options)]; the handle of the new child
    is the number of children forked before it. *)
Definition fork (modulePath : string) (args : list string) : M (World Heap) nat :=
  let* t := gets trace in
  effect (child_fork modulePath args) ;;;
  match on_fork env (count is_fork t) modulePath with
  | Some e => throw e
  | None => ret (count is_fork t)
  end.

(** [child.kill()] *)
Definition kill (child : nat) : M (World Heap) bool :=
  let* t := gets trace in
  let result := on_kill env (count is_kill t) child in
  effect (child_kill child result) ;;;
  match result with
  | kill_true => ret true
  | kill_false => ret false
  | kill_throws e => throw e
  end.

(** [process.exit(code)]: the first call sets [_exiting] and runs
    the ['exit'] listeners; every call then ends the process. *)
Definition process_exit {A} (exit_listeners : M (World Heap) unit) (code : Z)
  : M (World Heap) A :=
  let* h := gets heap in
  (if exiting h then ret tt
   else update set_exiting ;;; exit_listeners) ;;;
  fun w => Exits code w.

(** The callback of [processes.forEach] in [cleanup]. *)
Definition terminate (p : ProcessInfo) : M (World Heap) unit :=
  try_catch
    (let* t := gets trace in
     if negb (killed t (process p)) then
       kill (process p) ;;;
       log ("Terminated " +:+ name p +:+ " process")
     else ret tt)
    (fun err =>
       log ("Failed to kill " +:+ name p +:+ " process: " +:+ show_error err)).

(** [cleanup()].  It is itself the ['exit'] listener
    ([process.on('exit', cleanup)]), so it can run nested in its
    own [process.exit(0)]; [fuel] bounds that nesting. *)
Fixpoint cleanup (fuel : nat) : M (World Heap) unit :=
  match fuel with
  | O => fun _ => Pending
  | S fuel' =>
      log "Shutting down all processes..." ;;;
      let* h := gets heap in
      forEach (processes h) terminate ;;;
      process_exit (cleanup fuel') 0
  end.

(** [launchMcpServer()] *)
Definition launchMcpServer : M (World Heap) nat :=
  let* mcpProcess := fork "./index.js" [] in
  update (push (mkProcessInfo mcpProcess "MCP server")) ;;;
  update (attach mcpProcess mcpProcess_on) ;;;
  ret mcpProcess.

(** [launchVisualizationServer()]; [None] is the [null] result. *)
Definition launchVisualizationServer : M (World Heap) (option nat) :=
  try_catch
    (let* visPortAvailable := PortChecker.isPortAvailable env (port argv) in
     if negb visPortAvailable then
       log ("Visualization server port " +:+ pretty (port argv) +:+ " is already in use") ;;;
       log "Will reuse the existing visualization server" ;;;
       ret None
     else
       let* visualizerProcess :=
         fork "./visualize.js" ["--port=" +:+ pretty (port argv)] in
       update (push (mkProcessInfo visualizerProcess "Visualization server")) ;;;
       update (attach visualizerProcess visualizerProcess_on) ;;;
       effect (timer 1000) ;;;
       ret (Some visualizerProcess))
    (fun error =>
       log ("Error launching visualization server: " +:+ show_error error) ;;;
       ret None).

(** [main()] with its [.catch] *)
Definition main (fuel : nat) : M (World Heap) unit :=
  try_catch
    (log "Launching Atom of Thoughts" ;;;
     let* mcpProcess := launchMcpServer in
     (if argv.(visualize) then
        log "Starting visualization server" ;;;
        let* visualizerProcess := launchVisualizationServer in
        match visualizerProcess with
        | None => log "Using existing visualization server instance"
        | Some _ =>
            log ("Visualization available at http://localhost:" +:+ pretty (port argv))
        end
      else ret tt) ;;;
     log "All processes started")
    (fun error =>
       log ("Fatal error: " +:+ show_error error) ;;;
       cleanup fuel).

(** The listeners registered on [process] and on the children. *)
Definition on_event (fuel : nat) (ev : Event) : M (World Heap) unit :=
  match ev with
  | SIGINT => cleanup fuel
  | SIGTERM => cleanup fuel
  | child_error child err =>
      let* h := gets heap in
      match listeners h !! child with
      | Some mcpProcess_on =>
          log ("Failed to start MCP server: " +:+ show_error err) ;;;
          cleanup fuel
      | Some visualizerProcess_on =>
          log ("Failed to start visualization server: " +:+ show_error err)
      | None => ret tt
      end
  | child_exit child code signal =>
      let* h := gets heap in
      match listeners h !! child with
      | Some mcpProcess_on =>
          log ("MCP server exited with code " +:+ show_code code
               +:+ " and signal " +:+ show_signal signal) ;;;
          cleanup fuel
      | Some visualizerProcess_on =>
          log ("Visualization server exited with code " +:+ show_code code
               +:+ " and signal " +:+ show_signal signal)
      | None => ret tt
      end
  end.
End WithEnv.

End Launcher.

(* ===================================================================== *)
(** * 7. Sample data                                                      *)
(* ===================================================================== *)

Module Samples.
Import VisualizationServer.

Definition a1 : Atom :=
  mkAtom "a1" "Socrates is a man" premise [] (Qmake 9 10) false None 0.
Definition a2 : Atom :=
  mkAtom "a2" "Socrates is mortal" reasoning ["a1"] (Qmake 7 10) false None 1.
Definition a1_revised : Atom :=
  mkAtom "a1" "Socrates was a man" premise ["a0"] (Qmake 1 2) true (Some 0) 2.

(** An outside in which every port is free, the third connection
    attempt is the first to succeed, [kill] throws for child 0 and
    delivers the signal to every other child, and nothing else fails. *)
Definition env : Node.Env :=
  Node.mkEnv
    (fun _ _ => Node.listening)
    (fun n _ => if (n <? 2)%nat then Node.connect_error else Node.connect_ok)
    (fun _ child => if Nat.eqb child 0 then Node.kill_throws (JS.OtherError "kill EPERM")
                    else Node.kill_true)
    (fun _ _ => None)
    (fun _ _ => None).

(** An outside in which the port is taken. *)
Definition env_in_use : Node.Env :=
  Node.mkEnv
    (fun _ _ => Node.listen_error (Some "EADDRINUSE"))
    (fun _ _ => Node.connect_ok)
    (fun _ _ => Node.kill_true)
    (fun _ _ => None)
    (fun _ _ => None).

Definition argv : Launcher.ArgvOptions := Launcher.mkArgv true 3000.

(** The launcher once [main] has run with [--visualize]. *)
Definition launched : Node.World Launcher.Heap :=
  match Launcher.main env argv 2 Launcher.initial with
  | JS.Returns _ w => w
  | _ => Launcher.initial
  end.

End Samples.

(* ===================================================================== *)
(** * 7a. More of the page script (generateHTML)                          *)
(* ===================================================================== *)

Module PageView.
Import VisualizationServer.

(** The page as loaded: [let atoms = {}; let atomOrder = [];]. *)
Definition loaded : Page.Client := Page.mkClient ∅ [].

(** The handling of the messages a socket delivers, oldest first. *)
Definition receive (msgs : list Message) (c : Page.Client) : Page.Client :=
  foldl (fun c m => Page.socket_on m c) c msgs.

(** [fetchAtoms()]: what the [then] handler does with the body of the
    [/api/atoms] response; the map is rebuilt by [reduce] from [{}]. *)
Definition fetchAtoms (data : Snapshot) (c : Page.Client) : Page.Client :=
  Page.mkClient
    (foldl (fun obj atom => assign (atomId atom) atom obj) ∅ (snap_atoms data))
    (snap_atomOrder data).

End PageView.

(* ===================================================================== *)
(** * 7b. visualize.ts                                                    *)
(* ===================================================================== *)

Module Visualize.
Import JS JS.Notations Node.

(** The module state: whether the [SIGINT] / [SIGTERM] handlers are
    registered. *)
Record Heap : Type := mkHeap {
  signal_handlers : bool
}.

(** [(err as Error).message] *)
Definition message (e : Error) : string :=
  match e with
  | TypeError msg => msg
  | ErrnoException (Some code) => code
  | ErrnoException None => ""
  | OtherError msg => msg
  end.

Section Main.
(** [start] stands for [new VisualizationServer(argv.port)] followed by
    [await server.start()], and [stop] for [await server.stop()]: the
    asynchronous [start] and [stop] are not among the sources, so any
    behaviour is allowed for them. *)
Context (env : Env) (port : Z)
        (start : M (World Heap) bool) (stop : M (World Heap) unit).

(** [process.exit(code)]; this module registers no ['exit'] listener. *)
Definition process_exit {A} (code : Z) : M (World Heap) A :=
  fun w => Exits code w.

(** [main()] with its [.catch] *)
Definition main : M (World Heap) unit :=
  try_catch
    (try_catch
       (let* portAvailable := PortChecker.isPortAvailable env port in
        (if negb portAvailable then
           log ("Port " +:+ pretty port +:+ " is already in use.") ;;;
           log "Another visualization server is likely running." ;;;
           log "This process will exit to avoid conflicts." ;;;
           process_exit 0
         else ret tt) ;;;
        let* started := start in
        (if negb started then
           log "Failed to start visualization server" ;;;
           process_exit 1
         else ret tt) ;;;
        update (fun _ => mkHeap true))
       (fun err =>
          log ("Visualization server failed: " +:+ message err) ;;;
          process_exit 1))
    (fun err =>
       log ("Fatal error: " +:+ message err) ;;;
       process_exit 1).

(** The [cleanup] closure registered for [SIGINT] and [SIGTERM]. *)
Definition cleanup : M (World Heap) unit :=
  log "Shutting down visualization server..." ;;;
  stop ;;;
  process_exit 0.
End Main.

End Visualize.

(* ===================================================================== *)
(** * 7c. A reading of traces                                             *)
(* ===================================================================== *)

Module Traces.
Import Node Launcher.

(** Every [kill] in the segment [seg], which follows the trace [t], is
    on a child of [ps] whose [killed] flag is unset at the time of the
    call. *)
Definition kills_guarded (ps : list ProcessInfo) (t seg : list Effect) : Prop :=
  forall s1 c r s2,
    seg = s1 ++ child_kill c r :: s2 ->
    (exists p, p ∈ ps /\ process p = c) /\ killed (t ++ s1) c = false.

End Traces.

(* ===================================================================== *)
(** * 7d. More sample data                                                *)
(* ===================================================================== *)

Module MoreSamples.
Import VisualizationServer.

(** An outside in which no child can be forked. *)
Definition env_no_fork : Node.Env :=
  Node.mkEnv
    (fun _ _ => Node.listening)
    (fun _ _ => Node.connect_error)
    (fun _ _ => Node.kill_true)
    (fun _ _ => Some (JS.OtherError "spawn ENOENT"))
    (fun _ _ => None).

(** An atom whose id is the name [__proto__]. *)
Definition proto_atom : Atom :=
  mkAtom "__proto__" "All men are mortal" premise [] (Qmake 1 1) false None 3.

(** A producer publishes [a1], an observer connects on socket 7, the
    producer publishes [a2] and then [a1] again, revised. *)
Definition session : list Request :=
  [Publish Samples.a1; Connect 7; Publish Samples.a2; Publish Samples.a1_revised].

(** What socket 7 has been sent in that session. *)
Definition session_sent : list Message :=
  [atoms_update (mkSnapshot [Samples.a1] ["a1"]);
   atom_update Samples.a2; atoms_order ["a1"; "a2"];
   atom_update Samples.a1_revised; atoms_order ["a1"; "a2"]].

End MoreSamples.

(* ===================================================================== *)
(** * 8. Properties of the graph state (visualization-server.ts)          *)
(* ===================================================================== *)

(** Evaluation of monadic code, keeping counts and strings folded. *)
Ltac js_eval := cbn -[Node.count String.append pretty].


Section GraphState.
Import VisualizationServer.

Lemma includes_elem_of (arr : list string) (x : string) :
  includes arr x = true <-> x ∈ arr.
Proof.
  induction arr as [|y arr IH]; simpl.
  - split; [discriminate | intros H; inversion H].
  - destruct (String.eqb_spec y x) as [->|Hne].
    + split; [intros _; left | reflexivity].
    + rewrite IH. split; [now right|].
      intros H. inversion H; subst; [congruence | assumption].
Qed.

Lemma includes_not_elem_of (arr : list string) (x : string) :
  includes arr x = false <-> x ∉ arr.
Proof.
  rewrite <- includes_elem_of. destruct (includes arr x); split; congruence.
Qed.

(** Writing a property: the name [__proto__] sets the prototype and
    leaves the own properties alone, every other name is stored. *)
Lemma assign_proto atom (o : gmap string Atom) : assign "__proto__" atom o = o.
Proof. reflexivity. Qed.

Lemma assign_other k atom (o : gmap string Atom) :
  k ≠ "__proto__" -> assign k atom o = <[k := atom]> o.
Proof.
  intros Hk. unfold assign.
  destruct (String.eqb_spec k "__proto__"); [contradiction | reflexivity].
Qed.

Lemma assign_cases k atom (o : gmap string Atom) :
  (k = "__proto__" /\ assign k atom o = o) \/
  (k ≠ "__proto__" /\ assign k atom o = <[k := atom]> o).
Proof.
  destruct (decide (k = "__proto__")) as [->|Hk].
  - left. now split.
  - right. split; [assumption | now apply assign_other].
Qed.

Lemma assign_assign k atom (o : gmap string Atom) :
  assign k atom (assign k atom o) = assign k atom o.
Proof.
  destruct (assign_cases k atom o) as [[-> _]|[Hk _]]; [reflexivity|].
  rewrite !assign_other by assumption. apply insert_insert_eq.
Qed.

(** The three fields after [updateAtom], one equation each. *)
Lemma updateAtom_atoms atom s :
  atoms (updateAtom atom s) = assign (atomId atom) atom (atoms s).
Proof. unfold updateAtom. simpl. now destruct (includes _ _). Qed.

Lemma updateAtom_atomOrder atom s :
  atomOrder (updateAtom atom s) =
  if includes (atomOrder s) (atomId atom) then atomOrder s
  else atomOrder s ++ [atomId atom].
Proof. unfold updateAtom. simpl. now destruct (includes _ _). Qed.

Lemma updateAtom_io atom s :
  io (updateAtom atom s) =
  (fun sent => sent ++ [atom_update atom; atoms_order (atomOrder (updateAtom atom s))])
    <$> io s.
Proof.
  rewrite updateAtom_atomOrder. unfold updateAtom. simpl.
  destruct (includes _ _); simpl; rewrite <- map_fmap_compose;
    apply map_fmap_ext; intros i sent _; simpl; now rewrite <- app_assoc.
Qed.

Lemma graph_inv_constructor port : graph_inv (constructor port).
Proof.
  split; [constructor|]. simpl. split; [|split].
  - intros k [x Hx]. now rewrite lookup_empty in Hx.
  - intros k Hk. inversion Hk.
  - apply lookup_empty.
Qed.

Lemma graph_inv_updateAtom atom s :
  graph_inv s -> graph_inv (updateAtom atom s).
Proof.
  intros (Hnd & Hkeys & Horder & Hproto).
  assert (Hin : forall k, k ∈ atomOrder s \/ k = atomId atom ->
                          k ∈ atomOrder (updateAtom atom s)).
  { intros k Hk. rewrite updateAtom_atomOrder.
    destruct (includes (atomOrder s) (atomId atom)) eqn:E.
    - apply includes_elem_of in E. destruct Hk as [Hk| ->]; assumption.
    - rewrite elem_of_app, list_elem_of_singleton. exact Hk. }
  assert (Hout : forall k, k ∈ atomOrder (updateAtom atom s) ->
                           k ∈ atomOrder s \/ k = atomId atom).
  { intros k. rewrite updateAtom_atomOrder.
    destruct (includes (atomOrder s) (atomId atom)); [now left|].
    now rewrite elem_of_app, list_elem_of_singleton. }
  split; [|split; [|split]].
  - rewrite updateAtom_atomOrder.
    destruct (includes (atomOrder s) (atomId atom)) eqn:E; [assumption|].
    apply includes_not_elem_of in E.
    apply NoDup_app. split; [assumption|]. split.
    + intros x Hx Hx'. apply list_elem_of_singleton in Hx'. now subst.
    + apply NoDup_singleton.
  - intros k. rewrite updateAtom_atoms. intros Hk. apply Hin.
    destruct (assign_cases (atomId atom) atom (atoms s)) as [[_ E]|[_ E]];
      rewrite E in Hk.
    + left. now apply Hkeys.
    + destruct (decide (atomId atom = k)) as [<-|Hne]; [now right|].
      rewrite lookup_insert_ne in Hk by assumption. left. now apply Hkeys.
  - intros k Hk Hne. rewrite updateAtom_atoms.
    destruct (Hout k Hk) as [Hold| ->].
    + destruct (assign_cases (atomId atom) atom (atoms s)) as [[_ E]|[_ E]];
        rewrite E; [now apply Horder|].
      destruct (decide (atomId atom = k)) as [<-|Hne'].
      * rewrite lookup_insert_eq. eauto.
      * rewrite lookup_insert_ne by assumption. now apply Horder.
    + rewrite assign_other by assumption. rewrite lookup_insert_eq. eauto.
  - rewrite updateAtom_atoms.
    destruct (assign_cases (atomId atom) atom (atoms s)) as [[_ E]|[Hne E]];
      rewrite E; [assumption|].
    now rewrite lookup_insert_ne.
Qed.

Lemma graph_inv_handle s r : graph_inv s -> graph_inv (handle s r).
Proof.
  destruct r as [atom|socket|socket]; simpl.
  - apply graph_inv_updateAtom.
  - now intros H.
  - now intros H.
Qed.

Lemma graph_inv_run rs : forall s, graph_inv s -> graph_inv (run rs s).
Proof.
  unfold run. induction rs as [|r rs IH]; intros s Hs; simpl; [assumption|].
  apply IH. now apply graph_inv_handle.
Qed.

(** A key of [atoms] is never the name [__proto__]. *)
Lemma graph_inv_key s k :
  graph_inv s -> is_Some (atoms s !! k) -> k ≠ "__proto__" /\ k ∈ atomOrder s.
Proof.
  intros (_ & Hkeys & _ & Hproto) Hk. split; [|now apply Hkeys].
  intros ->. rewrite Hproto in Hk. now destruct Hk.
Qed.

Lemma run_app rs1 rs2 s : run (rs1 ++ rs2) s = run rs2 (run rs1 s).
Proof. unfold run. apply foldl_app. Qed.

Lemma published_app rs1 rs2 : published (rs1 ++ rs2) = published rs1 ++ published rs2.
Proof. unfold published. apply omap_app. Qed.

Lemma Object_values_empty : Object_values ∅ = [].
Proof. unfold Object_values. now rewrite map_to_list_empty. Qed.

Lemma Object_values_insert_fresh (o : gmap string Atom) k atom :
  o !! k = None -> Object_values (<[k := atom]> o) ≡ₚ Object_values o ++ [atom].
Proof.
  intros Hk. unfold Object_values.
  rewrite (map_to_list_insert o k atom Hk). simpl.
  apply Permutation_cons_append.
Qed.

(** The published atoms that end up as own properties. *)
Local Notation "'own' l" :=
  (filter (fun atom : Atom => atomId atom ≠ "__proto__") (l : list Atom))
  (at level 10, l at level 9, only parsing).

Lemma own_app (l1 l2 : list Atom) : own (l1 ++ l2) = own l1 ++ own l2.
Proof. apply filter_app. Qed.

Lemma own_all (l : list Atom) : "__proto__" ∉ (atomId <$> l) -> own l = l.
Proof.
  induction l as [|a l IH]; intros Hl; [reflexivity|].
  rewrite fmap_cons, not_elem_of_cons in Hl. destruct Hl as [Ha Hl].
  rewrite filter_cons_True by congruence. now rewrite IH.
Qed.

(** After a run from the fresh server in which no id is published
    twice, the order is the list of published ids, and the map holds
    the published atoms whose id is not [__proto__]. *)
Lemma run_distinct port rs :
  NoDup (atomId <$> published rs) ->
  atomOrder (run rs (constructor port)) = atomId <$> published rs /\
  Object_values (atoms (run rs (constructor port))) ≡ₚ own (published rs).
Proof.
  induction rs as [|r rs IH] using rev_ind; intros Hnd.
  - split; [reflexivity|]. simpl. now rewrite Object_values_empty.
  - rewrite published_app, fmap_app in Hnd. rewrite run_app, published_app.
    apply NoDup_app in Hnd as (Hnd1 & Hfresh & _).
    destruct (IH Hnd1) as [Ho Hv].
    pose proof (graph_inv_run rs _ (graph_inv_constructor port)) as Hinv.
    set (s := run rs (constructor port)) in *.
    destruct r as [atom|socket|socket];
      [|simpl; rewrite !app_nil_r; now split ..].
    change (run [Publish atom] s) with (updateAtom atom s).
    change (published [Publish atom]) with [atom].
    assert (Hnew : atomId atom ∉ atomOrder s).
    { rewrite Ho. intros Hin. apply (Hfresh _ Hin). simpl. now left. }
    split.
    + rewrite updateAtom_atomOrder.
      apply includes_not_elem_of in Hnew. rewrite Hnew, Ho.
      now rewrite fmap_app.
    + rewrite updateAtom_atoms, own_app.
      destruct (assign_cases (atomId atom) atom (atoms s)) as [[Hp E]|[Hp E]];
        rewrite E.
      * rewrite filter_cons_False by (intros H; now apply H).
        rewrite filter_nil, app_nil_r. exact Hv.
      * rewrite filter_cons_True by assumption. rewrite filter_nil.
        rewrite Object_values_insert_fresh; [now rewrite Hv|].
        destruct (atoms s !! atomId atom) eqn:Ek; [|reflexivity].
        exfalso. apply Hnew. apply (graph_inv_key s _ Hinv). eauto.
Qed.

End GraphState.

(** ** Idempotent publish *)

(** C4.  In every state the server can be in (any run of publishes,
    connections and disconnections from the fresh server), publishing
    an atom whose id is already a key of [atoms] stores exactly the atom
    just published under that id (content, dependencies and every other
    field are those of the latest publish), touches no other key, and
    leaves [atomOrder], hence its length, as it was. *)
Theorem updateAtom_replaces_existing port rs atom :
  let s := VisualizationServer.run rs (VisualizationServer.constructor port) in
  is_Some (VisualizationServer.atoms s !! VisualizationServer.atomId atom) ->
  VisualizationServer.atoms (VisualizationServer.updateAtom atom s)
    !! VisualizationServer.atomId atom = Some atom /\
  (forall k, k ≠ VisualizationServer.atomId atom ->
     VisualizationServer.atoms (VisualizationServer.updateAtom atom s) !! k
     = VisualizationServer.atoms s !! k) /\
  VisualizationServer.atomOrder (VisualizationServer.updateAtom atom s)
    = VisualizationServer.atomOrder s /\
  length (VisualizationServer.atomOrder (VisualizationServer.updateAtom atom s))
    = length (VisualizationServer.atomOrder s).
Proof.
  intros s Hin.
  pose proof (graph_inv_run rs _ (graph_inv_constructor port)) as Hinv.
  fold s in Hinv. destruct (graph_inv_key s _ Hinv Hin) as [Hne Hord].
  apply includes_elem_of in Hord.
  rewrite updateAtom_atoms, updateAtom_atomOrder, Hord.
  rewrite assign_other by assumption.
  split; [apply lookup_insert_eq|].
  split; [|split; reflexivity].
  intros k Hk. now apply lookup_insert_ne.
Qed.

(** ** The insertion order *)

(** C5.  After every run from the fresh server, [atomOrder] has no
    duplicate, every key of [atoms] is in it, and every id in it other
    than [__proto__] is a key of [atoms]; a further [updateAtom] either
    leaves [atomOrder] unchanged or appends the one id that was not in
    it, at the end.  The name [__proto__] is never a key of [atoms]:
    publishing an atom with that id to the fresh server gives the order
    [["__proto__"]] over an [atoms] with no key at all, so the order
    lists an id that [atoms] does not hold. *)
Theorem atomOrder_lists_keys_except_proto port rs :
  let s := VisualizationServer.run rs (VisualizationServer.constructor port) in
  NoDup (VisualizationServer.atomOrder s) /\
  (forall k, k ∈ dom (VisualizationServer.atoms s) ->
     k ∈ VisualizationServer.atomOrder s) /\
  (forall k, k ≠ "__proto__" ->
     (k ∈ VisualizationServer.atomOrder s <-> k ∈ dom (VisualizationServer.atoms s))) /\
  ("__proto__" ∉ dom (VisualizationServer.atoms s)) /\
  (forall atom,
     VisualizationServer.atomOrder (VisualizationServer.updateAtom atom s)
       = VisualizationServer.atomOrder s \/
     ((VisualizationServer.atomId atom ∉ VisualizationServer.atomOrder s) /\
      VisualizationServer.atomOrder (VisualizationServer.updateAtom atom s)
        = VisualizationServer.atomOrder s ++ [VisualizationServer.atomId atom])) /\
  (forall atom, VisualizationServer.atomId atom = "__proto__" ->
     let s1 := VisualizationServer.updateAtom atom (VisualizationServer.constructor port) in
     VisualizationServer.atomOrder s1 = ["__proto__"] /\
     VisualizationServer.atoms s1 = ∅ /\
     ~ (forall k, k ∈ VisualizationServer.atomOrder s1 <->
                  k ∈ dom (VisualizationServer.atoms s1))).
Proof.
  intros s.
  pose proof (graph_inv_run rs _ (graph_inv_constructor port))
    as (Hnd & Hkeys & Horder & Hproto).
  fold s in Hnd, Hkeys, Horder, Hproto.
  split; [assumption|]. split; [|split; [|split; [|split]]].
  - intros k. rewrite elem_of_dom. apply Hkeys.
  - intros k Hk. rewrite elem_of_dom. split; [|apply Hkeys].
    intros Hin. now apply Horder.
  - rewrite elem_of_dom, Hproto. now intros [x Hx].
  - intros atom. rewrite updateAtom_atomOrder.
    destruct (VisualizationServer.includes _ _) eqn:E; [now left|].
    right. split; [now apply includes_not_elem_of | reflexivity].
  - intros atom Hid s1. subst s1.
    rewrite updateAtom_atoms, updateAtom_atomOrder, Hid. simpl.
    split; [reflexivity|]. split; [reflexivity|].
    intros Hall. apply (not_elem_of_empty (C := gset string) "__proto__").
    rewrite <- (dom_empty (M := gmap string) (A := VisualizationServer.Atom)).
    apply Hall. now left.
Qed.

(** ** Snapshots *)

(** C6.  When the atoms published by a run from the fresh server have
    pairwise distinct ids, the snapshot's order is the list of their
    ids in publication order, as long as the number of atoms published
    and free of duplicates, and its atoms are the published atoms whose
    id is not [__proto__]: all of them when no such id was published,
    and fewer atoms than were published when one was.  That snapshot is
    the first and only message a socket has received once its
    ['connection'] handler has run, and it is the body of the
    [/api/atoms] response. *)
Theorem snapshot_misses_proto_atom port rs socket :
  NoDup (VisualizationServer.atomId <$> VisualizationServer.published rs) ->
  let s := VisualizationServer.run rs (VisualizationServer.constructor port) in
  let snap := VisualizationServer.snapshot s in
  VisualizationServer.snap_atoms snap
    ≡ₚ filter (fun atom => VisualizationServer.atomId atom ≠ "__proto__")
         (VisualizationServer.published rs) /\
  ("__proto__" ∉ (VisualizationServer.atomId <$> VisualizationServer.published rs) ->
   VisualizationServer.snap_atoms snap ≡ₚ VisualizationServer.published rs /\
   length (VisualizationServer.snap_atoms snap)
     = length (VisualizationServer.published rs)) /\
  ("__proto__" ∈ (VisualizationServer.atomId <$> VisualizationServer.published rs) ->
   (length (VisualizationServer.snap_atoms snap)
     < length (VisualizationServer.published rs))%nat) /\
  VisualizationServer.snap_atomOrder snap
    = (VisualizationServer.atomId <$> VisualizationServer.published rs) /\
  length (VisualizationServer.snap_atomOrder snap)
    = length (VisualizationServer.published rs) /\
  NoDup (VisualizationServer.snap_atomOrder snap) /\
  VisualizationServer.io
    (VisualizationServer.handle s (VisualizationServer.Connect socket)) !! socket
    = Some [VisualizationServer.atoms_update snap] /\
  VisualizationServer.api_atoms s = snap.
Proof.
  intros Hnd s snap.
  destruct (run_distinct port rs Hnd) as [Ho Hv]. fold s in Ho, Hv.
  unfold snap, VisualizationServer.snapshot. simpl.
  split; [assumption|].
  split; [intros Hp; rewrite Hv, (own_all _ Hp); now split|].
  split.
  { intros Hp. rewrite Hv. apply list_elem_of_fmap in Hp as (atom & Hid & Hin).
    apply (length_filter_lt _ _ atom Hin). intros Hne. now apply Hne. }
  split; [assumption|].
  split; [now rewrite Ho, length_fmap|].
  split; [now rewrite Ho|].
  split; [|reflexivity].
  rewrite lookup_alter_eq, lookup_insert_eq. reflexivity.
Qed.

(** ** Notifications *)

(** C7.  [updateAtom] appends exactly two messages to what each
    connected socket has been sent, first ['atom-update'] with the
    published atom, then ['atoms-order'] with the whole order as it is
    after the publish, and sends nothing to a socket that is not
    connected; on the observer's side, handling either message a second
    time leaves the observer's state as the first handling left it. *)
Theorem updateAtom_emits_atom_then_order atom s :
  (forall socket sent,
     VisualizationServer.io s !! socket = Some sent ->
     VisualizationServer.io (VisualizationServer.updateAtom atom s) !! socket
     = Some (sent ++
             [VisualizationServer.atom_update atom;
              VisualizationServer.atoms_order
                (VisualizationServer.atomOrder (VisualizationServer.updateAtom atom s))])) /\
  (forall socket,
     VisualizationServer.io s !! socket = None ->
     VisualizationServer.io (VisualizationServer.updateAtom atom s) !! socket = None) /\
  (forall c a,
     VisualizationServer.Page.socket_on (VisualizationServer.atom_update a)
       (VisualizationServer.Page.socket_on (VisualizationServer.atom_update a) c)
     = VisualizationServer.Page.socket_on (VisualizationServer.atom_update a) c) /\
  (forall c o,
     VisualizationServer.Page.socket_on (VisualizationServer.atoms_order o)
       (VisualizationServer.Page.socket_on (VisualizationServer.atoms_order o) c)
     = VisualizationServer.Page.socket_on (VisualizationServer.atoms_order o) c).
Proof.
  split; [|split; [|split]].
  - intros socket sent Hs. now rewrite updateAtom_io, lookup_fmap, Hs.
  - intros socket Hs. now rewrite updateAtom_io, lookup_fmap, Hs.
  - intros c a. simpl. now rewrite assign_assign.
  - intros c o. reflexivity.
Qed.

(* ===================================================================== *)
(** * 9. Properties of the port prober (port-checker.ts)                  *)
(* ===================================================================== *)

(** A port that [listen] refuses: [isPortAvailable] throws at once. *)
Lemma isPortAvailable_invalid {H : Type} (env : Node.Env) (port : Z)
    (w : Node.World H) :
  Node.valid_port port = false ->
  PortChecker.isPortAvailable env port w = JS.Throws Node.bad_port w.
Proof. intros Hp. unfold PortChecker.isPortAvailable. now rewrite Hp. Qed.

(** The three ways [isPortAvailable] can go on a port that [listen]
    accepts. *)
Lemma isPortAvailable_cases {H : Type} (env : Node.Env) (port : Z)
    (w : Node.World H) :
  Node.valid_port port = true ->
  let answer := Node.on_listen env (Node.count Node.is_listen (Node.trace w)) port in
  let opened := Node.trace w ++ [Node.net_listen port] in
  (answer = Node.listening /\
   PortChecker.isPortAvailable env port w
   = JS.Returns true (Node.mkWorld (Node.heap w) (opened ++ [Node.net_close port]))) \/
  (answer = Node.listen_error (Some "EADDRINUSE") /\
   PortChecker.isPortAvailable env port w
   = JS.Returns false (Node.mkWorld (Node.heap w) opened)) \/
  (exists code, code ≠ Some "EADDRINUSE" /\ answer = Node.listen_error code /\
   PortChecker.isPortAvailable env port w
   = JS.Returns true (Node.mkWorld (Node.heap w) opened)).
Proof.
  intros Hp answer opened. unfold PortChecker.isPortAvailable. rewrite Hp.
  unfold JS.bind, JS.gets, Node.effect, JS.modify, JS.ret. simpl. fold answer.
  destruct answer as [|code] eqn:E.
  - left. now split.
  - right. case_bool_decide as Hc.
    + left. subst code. now split.
    + right. exists code. now repeat split.
Qed.

(** C3.  On a port that [listen] accepts (an integer from 0 to 65535),
    [isPortAvailable] returns: when the bind succeeds it closes the
    server it opened and returns [true]; when the bind fails it returns
    [false] for the code [EADDRINUSE] and [true] for every other code
    (or none).  On any other port [listen] throws and
    [isPortAvailable] throws with it, with no effect on the outside:
    it gives no answer at all, and in particular not [true]; so it is
    for the ports 70000 and -1. *)
Theorem isPortAvailable_throws_on_invalid_port {H : Type} (env : Node.Env)
    (port : Z) (w : Node.World H) :
  let answer := Node.on_listen env (Node.count Node.is_listen (Node.trace w)) port in
  let opened := Node.trace w ++ [Node.net_listen port] in
  (if Node.valid_port port
   then
     (answer = Node.listening /\
      PortChecker.isPortAvailable env port w
      = JS.Returns true (Node.mkWorld (Node.heap w) (opened ++ [Node.net_close port]))) \/
     (answer = Node.listen_error (Some "EADDRINUSE") /\
      PortChecker.isPortAvailable env port w
      = JS.Returns false (Node.mkWorld (Node.heap w) opened)) \/
     (exists code, code ≠ Some "EADDRINUSE" /\ answer = Node.listen_error code /\
      PortChecker.isPortAvailable env port w
      = JS.Returns true (Node.mkWorld (Node.heap w) opened))
   else
     PortChecker.isPortAvailable env port w = JS.Throws Node.bad_port w) /\
  PortChecker.isPortAvailable env 70000 w = JS.Throws Node.bad_port w /\
  PortChecker.isPortAvailable env (-1) w = JS.Throws Node.bad_port w.
Proof.
  intros answer opened. split; [|split].
  - destruct (Node.valid_port port) eqn:Hp.
    + now apply isPortAvailable_cases.
    + now apply isPortAvailable_invalid.
  - now apply isPortAvailable_invalid.
  - now apply isPortAvailable_invalid.
Qed.

Section WaitLoop.
Import JS Node PortChecker.
Context {H : Type} (env : Env) (port maxAttempts intervalMs : Z).
Hypothesis port_ok : valid_port port = true.
Hypothesis max_exact : maxAttempts <= 2 ^ 53.

Lemma count_app k (t1 t2 : list Effect) :
  count k (t1 ++ t2) = (count k t1 + count k t2)%nat.
Proof. unfold count. now rewrite List.filter_app, length_app. Qed.

Lemma count_singleton k (e : Effect) :
  count k [e] = if k e then 1%nat else 0%nat.
Proof. unfold count. simpl. now destruct (k e). Qed.



Lemma canConnectToPort_spec (w : World H) :
  let r := on_connect env (count is_connect (trace w)) port in
  canConnectToPort env port w
  = Returns (match r with connect_ok => true | _ => false end)
            (mkWorld (heap w) (trace w ++ attempt_effects port r)).
Proof.
  intros r. unfold canConnectToPort. rewrite port_ok.
  unfold bind, gets, effect, modify, ret. simpl.
  fold r. destruct r; simpl; now rewrite <- ?app_assoc.
Qed.


End WaitLoop.




(* ===================================================================== *)
(** * 10. Properties of the control server's side channel
         (websocket-server.ts)                                            *)
(* ===================================================================== *)

(** C2.  For every port argument (given or defaulted),
    [new WebSocketServer(port)] throws a [TypeError] at the first
    [this.wss.on] of the constructor, with no effect on the outside.
    So the caller never gets an instance: whatever a program would do
    with it next is not run, in particular a call of [init],
    [sendMessage] or [close] on it. *)
Theorem constructor_always_throws (env : Node.Env) (port : option Z)
    (w : Node.World unit) :
  let null_on := JS.TypeError "Cannot read properties of null (reading 'on')" in
  WebSocketServer.new_WebSocketServer port w = JS.Throws null_on w /\
  (forall (A : Type) (use : WebSocketServer.Instance -> JS.M (Node.World unit) A),
     JS.bind (WebSocketServer.new_WebSocketServer port) use w = JS.Throws null_on w) /\
  JS.bind (WebSocketServer.new_WebSocketServer port)
    (fun this => WebSocketServer.call this (WebSocketServer.init env)) w
  = JS.Throws null_on w /\
  (forall type data,
     JS.bind (WebSocketServer.new_WebSocketServer port)
       (fun this => WebSocketServer.call this (WebSocketServer.sendMessage type data)) w
     = JS.Throws null_on w) /\
  JS.bind (WebSocketServer.new_WebSocketServer port)
    (fun this => WebSocketServer.call this WebSocketServer.close) w
  = JS.Throws null_on w.
Proof.
  intros null_on.
  assert (Hthrows : WebSocketServer.new_WebSocketServer port w = JS.Throws null_on w).
  { destruct w as [[] t]. reflexivity. }
  assert (Hany : forall (A : Type)
                   (use : WebSocketServer.Instance -> JS.M (Node.World unit) A),
             JS.bind (WebSocketServer.new_WebSocketServer port) use w
             = JS.Throws null_on w).
  { intros A use. unfold JS.bind. now rewrite Hthrows. }
  split; [exact Hthrows|]. split; [exact Hany|].
  split; [apply Hany|]. split; [intros type data; apply Hany | apply Hany].
Qed.


(* ===================================================================== *)
(** * 11. Properties of the supervisor (launcher.ts)                      *)
(* ===================================================================== *)

Section Teardown.
Import JS Node Launcher.
Context (env : Env).

Lemma killed_app (t1 t2 : list Effect) (child : nat) :
  killed (t1 ++ t2) child = killed t1 child || killed t2 child.
Proof. unfold killed. apply existsb_app. Qed.

Lemma killed_true_elem (t : list Effect) (child : nat) :
  killed t child = true -> child_kill child kill_true ∈ t.
Proof.
  unfold killed. intros Hk. apply existsb_exists in Hk as (e & Hin & He).
  apply list_elem_of_In.
  destruct e as [| | | | | | | | | |c r]; try discriminate.
  destruct r; try discriminate.
  apply Nat.eqb_eq in He. now subst.
Qed.

(** One call of the callback: it returns, leaves the module state
    alone, and calls [kill] on a child whose [killed] flag is unset. *)
Lemma terminate_spec (p : ProcessInfo) (w : World Heap) :
  exists (w' : World Heap) (seg : list Effect),
    terminate env p w = Returns tt w' /\
    heap w' = heap w /\
    trace w' = trace w ++ seg /\
    (killed (trace w) (process p) = false ->
     exists r, child_kill (process p) r ∈ seg).
Proof.
  unfold terminate, try_catch, bind at 1, gets.
  destruct (killed (trace w) (process p)) eqn:Hk; cbn [negb].
  - exists w, []. rewrite app_nil_r. now repeat split.
  - unfold kill, bind, gets, effect, modify, log. js_eval.
    destruct (on_kill env (count is_kill (trace w)) (process p)) eqn:Hr; js_eval.
    all: eexists _, _; split; [reflexivity|]; js_eval.
    all: split; [reflexivity|]; split; [rewrite <- app_assoc; reflexivity|].
    all: intros _; eexists; apply elem_of_app; left; apply list_elem_of_singleton;
      reflexivity.
Qed.

(** The loop over [processes]: an exception in one call does not stop
    the loop, so every child whose flag was unset gets its [kill]. *)
Lemma forEach_terminate_spec (ps : list ProcessInfo) :
  forall w : World Heap,
    exists (w' : World Heap) (seg : list Effect),
      forEach ps (terminate env) w = Returns tt w' /\
      heap w' = heap w /\
      trace w' = trace w ++ seg /\
      (forall p, p ∈ ps -> killed (trace w) (process p) = false ->
                 exists r, child_kill (process p) r ∈ seg).
Proof.
  induction ps as [|p ps IH]; intros w.
  - exists w, []. rewrite app_nil_r. repeat split. intros p Hp. inversion Hp.
  - destruct (terminate_spec p w) as (w1 & seg1 & Hrun1 & Hheap1 & Htrace1 & Hkill1).
    destruct (IH w1) as (w' & seg2 & Hrun2 & Hheap2 & Htrace2 & Hkill2).
    exists w', (seg1 ++ seg2).
    split; [cbn [forEach]; unfold bind; now rewrite Hrun1|].
    split; [congruence|].
    split; [now rewrite Htrace2, Htrace1, app_assoc|].
    intros q Hq Hflag. apply elem_of_cons in Hq as [->|Hq].
    + destruct (Hkill1 Hflag) as [r Hr]. exists r. apply elem_of_app. now left.
    + destruct (killed (trace w1) (process q)) eqn:Hflag1.
      * rewrite Htrace1, killed_app, Hflag in Hflag1. cbn [orb] in Hflag1.
        exists kill_true. apply elem_of_app. left. now apply killed_true_elem.
      * destruct (Hkill2 q Hq Hflag1) as [r Hr]. exists r. apply elem_of_app. now right.
Qed.

(** [cleanup] with fuel for its one nested run. *)
Lemma cleanup_spec (fuel : nat) (w : World Heap) :
  (2 <= fuel)%nat ->
  exists (w' : World Heap) (seg : list Effect),
    cleanup env fuel w = Exits 0 w' /\
    processes (heap w') = processes (heap w) /\
    trace w' = trace w ++ seg /\
    (forall p, p ∈ processes (heap w) -> killed (trace w) (process p) = false ->
               exists r, child_kill (process p) r ∈ seg).
Proof.
  intros Hfuel. destruct fuel as [|[|fuel]]; [lia | lia |].
  cbn [cleanup]. unfold bind at 1, log, effect, modify.
  set (w0 := mkWorld (heap w) (trace w ++ [console_error _])).
  unfold bind at 1, gets. cbn [heap w0].
  destruct (forEach_terminate_spec (processes (heap w)) w0)
    as (w1 & seg1 & Hrun1 & Hheap1 & Htrace1 & Hkill1).
  unfold bind at 1. rewrite Hrun1.
  assert (Hkills : forall p, p ∈ processes (heap w) ->
            killed (trace w) (process p) = false ->
            exists r, child_kill (process p) r ∈ console_error "Shutting down all processes..." :: seg1).
  { intros p Hp Hflag. destruct (Hkill1 p Hp) as [r Hr].
    - unfold w0. cbn [trace]. now rewrite killed_app, Hflag.
    - exists r. now right. }
  unfold process_exit, bind at 1 2, gets. rewrite Hheap1. cbn [heap w0].
  destruct (exiting (heap w)) eqn:Hex.
  - exists w1, (console_error "Shutting down all processes..." :: seg1).
    split; [reflexivity|]. split; [now rewrite Hheap1|].
    split; [|exact Hkills].
    rewrite Htrace1. unfold w0. cbn [trace]. now rewrite <- app_assoc.
  - unfold bind at 1, update, modify.
    set (w2 := mkWorld (set_exiting (heap w1)) (trace w1)).
    unfold bind at 1, log, effect, modify.
    set (w3 := mkWorld (heap w2) (trace w2 ++ [console_error _])).
    unfold bind at 1, gets.
    destruct (forEach_terminate_spec (processes (heap w3)) w3)
      as (w4 & seg2 & Hrun2 & Hheap2 & Htrace2 & _).
    unfold bind at 1. rewrite Hrun2.
    unfold bind at 1 2, gets. rewrite Hheap2. cbn.
    exists w4, (console_error "Shutting down all processes..." :: seg1
                ++ console_error "Shutting down all processes..." :: seg2).
    split; [reflexivity|].
    split; [rewrite Hheap2; cbn; now rewrite Hheap1|].
    split.
    + rewrite Htrace2. cbn. rewrite Htrace1. unfold w0. cbn [trace].
      rewrite <- !app_assoc. reflexivity.
    + intros p Hp Hflag. destruct (Hkills p Hp Hflag) as [r Hr]. exists r.
      rewrite app_comm_cons. apply elem_of_app. now left.
Qed.

(** Before the first [kill] no child has its flag set. *)
Lemma no_kill_no_flag (t : list Effect) (child : nat) :
  count is_kill t = 0%nat -> killed t child = false.
Proof.
  intros Hnone. destruct (killed t child) eqn:Hflag; [|reflexivity].
  apply killed_true_elem, list_elem_of_In, in_split in Hflag as (t1 & t2 & ->).
  rewrite count_app in Hnone.
  change (child_kill child kill_true :: t2) with ([child_kill child kill_true] ++ t2) in Hnone.
  rewrite count_app, count_singleton in Hnone. cbn [is_kill] in Hnone. lia.
Qed.

(** The readings of "every child": in this run when the flag was
    unset (so for all of them in a first teardown), and in the whole
    trace in any case. *)
Lemma cleanup_kills_all (fuel : nat) (w : World Heap) :
  (2 <= fuel)%nat ->
  exists (w' : World Heap) (seg : list Effect),
    cleanup env fuel w = Exits 0 w' /\
    trace w' = trace w ++ seg /\
    (forall p, p ∈ processes (heap w) -> killed (trace w) (process p) = false ->
               exists r, child_kill (process p) r ∈ seg) /\
    (count is_kill (trace w) = 0%nat ->
     forall p, p ∈ processes (heap w) -> exists r, child_kill (process p) r ∈ seg) /\
    (forall p, p ∈ processes (heap w) ->
               exists r, child_kill (process p) r ∈ trace w').
Proof.
  intros Hfuel.
  destruct (cleanup_spec fuel w Hfuel) as (w' & seg & Hrun & _ & Htrace & Hkills).
  exists w', seg. split; [exact Hrun|]. split; [exact Htrace|]. split; [exact Hkills|].
  split; [intros Hnone p Hp; apply (Hkills p Hp), no_kill_no_flag, Hnone|].
  intros p Hp. rewrite Htrace.
  destruct (killed (trace w) (process p)) eqn:Hflag.
  - exists kill_true. apply elem_of_app. left. now apply killed_true_elem.
  - destruct (Hkills p Hp Hflag) as [r Hr]. exists r. apply elem_of_app. now right.
Qed.

(** [launchVisualizationServer] catches what its body throws. *)
Lemma launchVisualizationServer_returns (argv : ArgvOptions) (w : World Heap) :
  exists (r : option nat) (w' : World Heap),
    launchVisualizationServer env argv w = Returns r w' /\
    exiting (heap w') = exiting (heap w) /\
    count is_kill (trace w') = count is_kill (trace w).
Proof.
  unfold launchVisualizationServer, try_catch, bind at 1.
  destruct (valid_port (port argv)) eqn:Hport.
  2: { rewrite (isPortAvailable_invalid env _ w Hport).
       eexists _, _. split; [reflexivity|]. js_eval.
       rewrite !count_app, !count_singleton. cbn [is_kill]. split; [reflexivity | lia]. }
  destruct (isPortAvailable_cases env (port argv) w Hport)
    as [[_ Hp]|[[_ Hp]|(code & _ & _ & Hp)]]; rewrite Hp; cbn [negb].
  2: { eexists _, _. split; [reflexivity|]. js_eval.
       rewrite !count_app, !count_singleton. cbn [is_kill]. split; [reflexivity | lia]. }
  all: unfold fork, bind, gets, effect, modify; cbn [trace heap];
    match goal with |- context [on_fork ?e ?n ?p] =>
      destruct (on_fork e n p) as [err|] eqn:Hfork end.
  all: js_eval; eexists _, _; (split; [reflexivity|]); js_eval.
  all: rewrite !count_app, !count_singleton; cbn [is_kill]; split; [reflexivity | lia].
Qed.

End Teardown.

(** C9.  Whatever the tracked children and whatever each [kill] does
    (deliver the signal, fail, or throw), [cleanup] ends the process
    with exit code 0 after it has gone through all of [processes]:
    every child whose [killed] flag was unset when [cleanup] started
    has had [kill] called on it during this [cleanup]; that is every
    tracked child when no [kill] was called before; and in any case
    every tracked child has had [kill] called on it by the time the
    process exits.  An exception thrown by one [kill] is caught inside
    the loop and stops nothing. *)
Theorem cleanup_attempts_every_child (env : Node.Env) (fuel : nat)
    (w : Node.World Launcher.Heap) :
  (2 <= fuel)%nat ->
  exists (w' : Node.World Launcher.Heap) (seg : list Node.Effect),
    Launcher.cleanup env fuel w = JS.Exits 0 w' /\
    Node.trace w' = Node.trace w ++ seg /\
    (forall p, p ∈ Launcher.processes (Node.heap w) ->
       Launcher.killed (Node.trace w) (Launcher.process p) = false ->
       exists r, Node.child_kill (Launcher.process p) r ∈ seg) /\
    (Node.count Node.is_kill (Node.trace w) = 0%nat ->
     forall p, p ∈ Launcher.processes (Node.heap w) ->
       exists r, Node.child_kill (Launcher.process p) r ∈ seg) /\
    (forall p, p ∈ Launcher.processes (Node.heap w) ->
       exists r, Node.child_kill (Launcher.process p) r ∈ Node.trace w').
Proof. apply cleanup_kills_all. Qed.

(** C8.  When the child that carries the MCP handlers exits, with any
    code and any signal, the launcher runs [cleanup]: the process ends
    with exit code 0 and every tracked child has had [kill] called on
    it (during this teardown when its flag was unset, so for all of
    them when no [kill] was called before).  When the child
    that carries the visualization handlers exits or reports an error,
    the launcher writes one line and nothing else: no [kill], no exit,
    same module state.  And [launchVisualizationServer] itself always
    returns and calls no [kill], also when the spawn throws. *)
Theorem mcp_exit_tears_down_visualizer_exit_does_not (env : Node.Env)
    (argv : Launcher.ArgvOptions) (fuel : nat) (w : Node.World Launcher.Heap)
    (child : nat) (code : option Z) (signal : option string) :
  (2 <= fuel)%nat ->
  (Launcher.listeners (Node.heap w) !! child = Some Launcher.mcpProcess_on ->
   exists (w' : Node.World Launcher.Heap) (seg : list Node.Effect),
     Launcher.on_event env fuel (Launcher.child_exit child code signal) w
     = JS.Exits 0 w' /\
     Node.trace w' = Node.trace w ++ seg /\
     (forall p, p ∈ Launcher.processes (Node.heap w) ->
        Launcher.killed (Node.trace w) (Launcher.process p) = false ->
        exists r, Node.child_kill (Launcher.process p) r ∈ seg) /\
     (Node.count Node.is_kill (Node.trace w) = 0%nat ->
      forall p, p ∈ Launcher.processes (Node.heap w) ->
        exists r, Node.child_kill (Launcher.process p) r ∈ seg) /\
     (forall p, p ∈ Launcher.processes (Node.heap w) ->
        exists r, Node.child_kill (Launcher.process p) r ∈ Node.trace w')) /\
  (Launcher.listeners (Node.heap w) !! child = Some Launcher.visualizerProcess_on ->
   forall ev,
     ev = Launcher.child_exit child code signal \/
     (exists err, ev = Launcher.child_error child err) ->
     exists line,
       Launcher.on_event env fuel ev w
       = JS.Returns tt (Node.mkWorld (Node.heap w)
                          (Node.trace w ++ [Node.console_error line]))) /\
  (exists (r : option nat) (w' : Node.World Launcher.Heap),
     Launcher.launchVisualizationServer env argv w = JS.Returns r w' /\
     Launcher.exiting (Node.heap w') = Launcher.exiting (Node.heap w) /\
     Node.count Node.is_kill (Node.trace w') = Node.count Node.is_kill (Node.trace w)).
Proof.
  intros Hfuel. split; [|split].
  - intros Hon. unfold Launcher.on_event, JS.bind at 1, JS.gets. rewrite Hon.
    unfold JS.bind at 1, Node.log, Node.effect, JS.modify.
    set (line := Node.console_error _).
    set (w0 := Node.mkWorld (Node.heap w) (Node.trace w ++ [line])).
    destruct (cleanup_kills_all env fuel w0 Hfuel)
      as (w' & seg & Hrun & Htrace & Hnew & _ & Hall).
    exists w', (line :: seg).
    split; [exact Hrun|].
    split; [rewrite Htrace; unfold w0; cbn [Node.trace]; now rewrite <- app_assoc|].
    assert (Hseg : forall p, p ∈ Launcher.processes (Node.heap w) ->
              Launcher.killed (Node.trace w) (Launcher.process p) = false ->
              exists r, Node.child_kill (Launcher.process p) r ∈ line :: seg).
    { intros p Hp Hflag. destruct (Hnew p Hp) as [r Hr].
      - unfold w0. cbn [Node.trace]. now rewrite killed_app, Hflag.
      - exists r. now right. }
    split; [exact Hseg|]. split; [|exact Hall].
    intros Hnone p Hp. apply (Hseg p Hp), no_kill_no_flag, Hnone.
  - intros Hon ev [->|[err ->]];
      unfold Launcher.on_event, JS.bind at 1, JS.gets; rewrite Hon;
      eexists; reflexivity.
  - apply launchVisualizationServer_returns.
Qed.


Example launched_tracks_both_children :
  Launcher.processes (Node.heap Samples.launched)
  = [Launcher.mkProcessInfo 0 "MCP server";
     Launcher.mkProcessInfo 1 "Visualization server"] /\
  Launcher.listeners (Node.heap Samples.launched) !! 0%nat = Some Launcher.mcpProcess_on /\
  Launcher.listeners (Node.heap Samples.launched) !! 1%nat
  = Some Launcher.visualizerProcess_on.
Proof. vm_compute. repeat split. Qed.

Example launched_trace :
  Node.trace Samples.launched
  = [Node.console_error "Launching Atom of Thoughts";
     Node.child_fork "./index.js" [];
     Node.console_error "Starting visualization server";
     Node.net_listen 3000;
     Node.net_close 3000;
     Node.child_fork "./visualize.js" ["--port=3000"];
     Node.timer 1000;
     Node.console_error "Visualization available at http://localhost:3000";
     Node.console_error "All processes started"].
Proof. vm_compute. reflexivity. Qed.

Example sigint_trace :
  Launcher.on_event Samples.env 2 Launcher.SIGINT Samples.launched
  = JS.Exits 0
      (Node.mkWorld
         (Launcher.set_exiting (Node.heap Samples.launched))
         (Node.trace Samples.launched ++
          [Node.console_error "Shutting down all processes...";
           Node.child_kill 0 (Node.kill_throws (JS.OtherError "kill EPERM"));
           Node.console_error "Failed to kill MCP server process: Error: kill EPERM";
           Node.child_kill 1 Node.kill_true;
           Node.console_error "Terminated Visualization server process";
           Node.console_error "Shutting down all processes...";
           Node.child_kill 0 (Node.kill_throws (JS.OtherError "kill EPERM"));
           Node.console_error "Failed to kill MCP server process: Error: kill EPERM"])).
Proof. vm_compute. reflexivity. Qed.

Example waitForServerOnPort_third_attempt :
  PortChecker.waitForServerOnPort Samples.env 6 3000 (Some (JS.of_Z 5)) (Some 500)
    (Node.mkWorld tt [])
  = JS.Returns true
      (Node.mkWorld tt
         [Node.console_error "Waiting for server on port 3000...";
          Node.net_connect 3000 "127.0.0.1"; Node.net_destroy 3000; Node.timer 500;
          Node.net_connect 3000 "127.0.0.1"; Node.net_destroy 3000; Node.timer 500;
          Node.net_connect 3000 "127.0.0.1"; Node.net_destroy 3000;
          Node.console_error "Server detected on port 3000"]).
Proof. vm_compute. reflexivity. Qed.

Example waitForServerOnPort_gives_up :
  PortChecker.waitForServerOnPort Samples.env 3 3000 (Some (JS.of_Z 2)) (Some 500)
    (Node.mkWorld tt [])
  = JS.Returns false
      (Node.mkWorld tt
         [Node.console_error "Waiting for server on port 3000...";
          Node.net_connect 3000 "127.0.0.1"; Node.net_destroy 3000; Node.timer 500;
          Node.net_connect 3000 "127.0.0.1"; Node.net_destroy 3000; Node.timer 500;
          Node.console_error "Timed out waiting for server on port 3000"]).
Proof. vm_compute. reflexivity. Qed.

Example publish_a1_then_a2 :
  VisualizationServer.snapshot
    (VisualizationServer.run
       [VisualizationServer.Publish Samples.a1; VisualizationServer.Publish Samples.a2]
       (VisualizationServer.constructor None))
  = VisualizationServer.mkSnapshot [Samples.a1; Samples.a2] ["a1"; "a2"].
Proof. vm_compute. reflexivity. Qed.

Example init_defers_when_port_in_use :
  WebSocketServer.init Samples.env_in_use
    (Node.mkWorld (WebSocketServer.mkInstance None [] 8090) [])
  = JS.Returns false
      (Node.mkWorld (WebSocketServer.mkInstance None [] 8090)
         [Node.net_listen 8090;
          Node.console_error "WebSocket server port 8090 is already in use.";
          Node.console_error "This likely means another MCP server is already running.";
          Node.console_error "Will attempt to reuse the existing WebSocket server."]).
Proof. vm_compute. reflexivity. Qed.

Example init_starts_when_port_free :
  WebSocketServer.init Samples.env
    (Node.mkWorld (WebSocketServer.mkInstance None [] 8090) [])
  = JS.Returns true
      (Node.mkWorld
         (WebSocketServer.mkInstance
            (Some (WebSocketServer.mkWSServer ["connection"; "listening"; "error"]))
            [] 8090)
         [Node.net_listen 8090; Node.net_close 8090; Node.ws_listen 8090]).
Proof. vm_compute. reflexivity. Qed.

Example publish_proto_atom :
  VisualizationServer.snapshot
    (VisualizationServer.run
       [VisualizationServer.Publish MoreSamples.proto_atom]
       (VisualizationServer.constructor None))
  = VisualizationServer.mkSnapshot [] ["__proto__"].
Proof. vm_compute. reflexivity. Qed.

Example isPortAvailable_70000 :
  PortChecker.isPortAvailable Samples.env 70000 (Node.mkWorld tt [])
  = JS.Throws (JS.ErrnoException (Some "ERR_SOCKET_BAD_PORT")) (Node.mkWorld tt []).
Proof. vm_compute. reflexivity. Qed.



Lemma updateAtom_replaces_existing_witness :
  is_Some (VisualizationServer.atoms
             (VisualizationServer.run
                [VisualizationServer.Publish Samples.a1;
                 VisualizationServer.Publish Samples.a2]
                (VisualizationServer.constructor None)) !! "a1") /\
  VisualizationServer.atoms
    (VisualizationServer.updateAtom Samples.a1_revised
       (VisualizationServer.run
          [VisualizationServer.Publish Samples.a1;
           VisualizationServer.Publish Samples.a2]
          (VisualizationServer.constructor None))) !! "a1"
  = Some Samples.a1_revised.
Proof.
  assert (Hin : is_Some (VisualizationServer.atoms
             (VisualizationServer.run
                [VisualizationServer.Publish Samples.a1;
                 VisualizationServer.Publish Samples.a2]
                (VisualizationServer.constructor None)) !! "a1")).
  { exists Samples.a1. vm_compute. reflexivity. }
  split; [exact Hin|].
  exact (proj1 (updateAtom_replaces_existing None
                  [VisualizationServer.Publish Samples.a1;
                   VisualizationServer.Publish Samples.a2]
                  Samples.a1_revised Hin)).
Defined.

Lemma snapshot_misses_proto_atom_witness :
  NoDup (VisualizationServer.atomId <$>
         VisualizationServer.published
           [VisualizationServer.Publish Samples.a1;
            VisualizationServer.Connect 7;
            VisualizationServer.Publish MoreSamples.proto_atom]) /\
  VisualizationServer.snap_atomOrder
    (VisualizationServer.snapshot
       (VisualizationServer.run
          [VisualizationServer.Publish Samples.a1;
           VisualizationServer.Connect 7;
           VisualizationServer.Publish MoreSamples.proto_atom]
          (VisualizationServer.constructor None)))
  = ["a1"; "__proto__"] /\
  (length
     (VisualizationServer.snap_atoms
        (VisualizationServer.snapshot
           (VisualizationServer.run
              [VisualizationServer.Publish Samples.a1;
               VisualizationServer.Connect 7;
               VisualizationServer.Publish MoreSamples.proto_atom]
              (VisualizationServer.constructor None))))
   < 2)%nat.
Proof.
  assert (Hnd : NoDup (VisualizationServer.atomId <$>
         VisualizationServer.published
           [VisualizationServer.Publish Samples.a1;
            VisualizationServer.Connect 7;
            VisualizationServer.Publish MoreSamples.proto_atom])).
  { apply (bool_decide_unpack _). vm_compute. reflexivity. }
  assert (Hin : "__proto__" ∈ (VisualizationServer.atomId <$>
         VisualizationServer.published
           [VisualizationServer.Publish Samples.a1;
            VisualizationServer.Connect 7;
            VisualizationServer.Publish MoreSamples.proto_atom])).
  { apply (bool_decide_unpack _). vm_compute. reflexivity. }
  split; [exact Hnd|].
  destruct (snapshot_misses_proto_atom None
              [VisualizationServer.Publish Samples.a1;
               VisualizationServer.Connect 7;
               VisualizationServer.Publish MoreSamples.proto_atom] 9%nat Hnd)
    as (_ & _ & Hlt & Ho & _).
  split; [exact Ho | exact (Hlt Hin)].
Defined.


Lemma cleanup_attempts_every_child_witness :
  (2 <= 2)%nat /\
  exists w' : Node.World Launcher.Heap,
    Launcher.cleanup Samples.env 2 Samples.launched = JS.Exits 0 w' /\
    exists r, Node.child_kill 1 r ∈ Node.trace w'.
Proof.
  assert (H2 : (2 <= 2)%nat) by lia.
  split; [exact H2|].
  destruct (cleanup_attempts_every_child Samples.env 2 Samples.launched H2)
    as (w' & seg & Hrun & _ & _ & _ & Hall).
  exists w'. split; [exact Hrun|].
  apply (Hall (Launcher.mkProcessInfo 1 "Visualization server")).
  rewrite (proj1 launched_tracks_both_children). right. left.
Defined.

Lemma mcp_exit_tears_down_witness :
  (2 <= 2)%nat /\
  (exists w' : Node.World Launcher.Heap,
     Launcher.on_event Samples.env 2 (Launcher.child_exit 0 (Some 1) None) Samples.launched
     = JS.Exits 0 w' /\
     exists r, Node.child_kill 1 r ∈ Node.trace w') /\
  (exists line,
     Launcher.on_event Samples.env 2 (Launcher.child_exit 1 None (Some "SIGKILL"))
       Samples.launched
     = JS.Returns tt (Node.mkWorld (Node.heap Samples.launched)
                        (Node.trace Samples.launched ++ [Node.console_error line]))).
Proof.
  assert (H2 : (2 <= 2)%nat) by lia.
  split; [exact H2|]. split.
  - destruct (mcp_exit_tears_down_visualizer_exit_does_not Samples.env Samples.argv 2
                Samples.launched 0 (Some 1) None H2) as (Hmcp & _ & _).
    destruct (Hmcp (proj1 (proj2 launched_tracks_both_children)))
      as (w' & seg & Hrun & _ & _ & _ & Hall).
    exists w'. split; [exact Hrun|].
    apply (Hall (Launcher.mkProcessInfo 1 "Visualization server")).
    rewrite (proj1 launched_tracks_both_children). right. left.
  - destruct (mcp_exit_tears_down_visualizer_exit_does_not Samples.env Samples.argv 2
                Samples.launched 1 None (Some "SIGKILL") H2) as (_ & Hvis & _).
    apply (Hvis (proj2 (proj2 launched_tracks_both_children))). now left.
Defined.

(* ===================================================================== *)
(** * 12. Further properties of the graph state and of the page           *)
(* ===================================================================== *)

Section GraphRuns.
Import VisualizationServer PageView.

Lemma run_snoc rs r s : run (rs ++ [r]) s = handle (run rs s) r.
Proof. now rewrite run_app. Qed.

(** A fold of [obj[atom.atomId] = atom] over a list: under each id
    other than [__proto__] the last atom of the list with that id, and
    what was there before for the other ids. *)
Lemma foldl_assign_lookup (l : list Atom) (acc : gmap string Atom) (k : string) :
  foldl (fun obj atom => assign (atomId atom) atom obj) acc l !! k
  = if String.eqb k "__proto__" then acc !! k
    else match last (filter (fun atom => atomId atom = k) l) with
         | Some atom => Some atom
         | None => acc !! k
         end.
Proof.
  induction l as [|x l IH] using rev_ind; [now destruct (String.eqb _ _)|].
  rewrite foldl_app, filter_app. cbn [foldl].
  destruct (assign_cases (atomId x) x
              (foldl (fun obj atom => assign (atomId atom) atom obj) acc l))
    as [[Hp E]|[Hp E]]; rewrite E.
  - rewrite IH. destruct (String.eqb_spec k "__proto__") as [Hk|Hk]; [reflexivity|].
    rewrite (filter_singleton_False _ x []) by congruence. now rewrite app_nil_r.
  - destruct (decide (atomId x = k)) as [Hk|Hk].
    + rewrite (filter_singleton_True _ x [] Hk), last_snoc, Hk.
      destruct (String.eqb_spec k "__proto__") as [Hk'|_]; [congruence|].
      apply lookup_insert_eq.
    + rewrite (filter_singleton_False _ x [] Hk), app_nil_r.
      rewrite lookup_insert_ne by assumption. exact IH.
Qed.

Lemma elem_of_Object_values (o : gmap string Atom) (atom : Atom) :
  atom ∈ Object_values o <-> exists k, o !! k = Some atom.
Proof.
  unfold Object_values. rewrite list_elem_of_fmap. split.
  - intros ([k a] & -> & Hin). exists k. now apply elem_of_map_to_list.
  - intros [k Hk]. exists (k, atom). split; [reflexivity|].
    now apply elem_of_map_to_list.
Qed.

(** Rebuilding a map from its values, when each value sits under its
    own id and no key is [__proto__]. *)
Lemma rebuild_from_values (o : gmap string Atom) :
  (forall k atom, o !! k = Some atom -> atomId atom = k) ->
  o !! "__proto__" = None ->
  foldl (fun obj atom => assign (atomId atom) atom obj) ∅ (Object_values o) = o.
Proof.
  intros Hown Hproto. apply map_eq. intros k.
  rewrite foldl_assign_lookup, lookup_empty.
  destruct (String.eqb_spec k "__proto__") as [->|Hk]; [now rewrite Hproto|].
  destruct (last (filter (fun atom => atomId atom = k) (Object_values o))) as [b|] eqn:Hlast.
  - apply last_Some_elem_of, list_elem_of_filter in Hlast as [Hid Hin].
    apply elem_of_Object_values in Hin as [k' Hk'].
    assert (k' = k) as -> by (rewrite <- (Hown _ _ Hk'); exact Hid).
    now rewrite Hk'.
  - apply last_None in Hlast.
    destruct (o !! k) as [a|] eqn:Hlook; [|reflexivity].
    exfalso. apply (filter_nil_not_elem_of _ _ a Hlast (Hown _ _ Hlook)).
    apply elem_of_Object_values. eauto.
Qed.

Lemma atoms_of_run port rs :
  atoms (run rs (constructor port))
  = foldl (fun obj atom => assign (atomId atom) atom obj) ∅ (published rs).
Proof.
  induction rs as [|r rs IH] using rev_ind; [reflexivity|].
  rewrite run_snoc, published_app, foldl_app, <- IH.
  destruct r; [apply updateAtom_atoms | reflexivity | reflexivity].
Qed.

Lemma own_id_of_run port rs k atom :
  atoms (run rs (constructor port)) !! k = Some atom -> atomId atom = k.
Proof.
  rewrite atoms_of_run, foldl_assign_lookup, lookup_empty.
  destruct (String.eqb k "__proto__"); [discriminate|].
  destruct (last _) as [b|] eqn:Hlast; [|discriminate].
  intros [= ->]. now apply last_Some_elem_of, list_elem_of_filter in Hlast as [Hid _].
Qed.

Lemma no_proto_of_run port rs :
  atoms (run rs (constructor port)) !! "__proto__" = None.
Proof. apply (graph_inv_run rs _ (graph_inv_constructor port)). Qed.

Lemma atomOrder_of_run port rs :
  atomOrder (run rs (constructor port))
  = reverse (remove_dups (reverse (atomId <$> published rs))).
Proof.
  induction rs as [|r rs IH] using rev_ind; [reflexivity|].
  rewrite run_snoc, published_app, fmap_app.
  destruct r as [atom|socket|socket];
    [|cbn; rewrite app_nil_r; exact IH ..].
  change (handle ?s (Publish atom)) with (updateAtom atom s).
  change (atomId <$> published [Publish atom]) with [atomId atom].
  rewrite updateAtom_atomOrder, reverse_snoc. cbn [remove_dups].
  destruct (includes _ _) eqn:Hinc.
  - apply includes_elem_of in Hinc.
    rewrite IH, elem_of_reverse, elem_of_remove_dups in Hinc.
    destruct (decide_rel elem_of _ _) as [_|Hnin]; [exact IH | contradiction].
  - apply includes_not_elem_of in Hinc.
    rewrite IH, elem_of_reverse, elem_of_remove_dups in Hinc.
    destruct (decide_rel elem_of _ _) as [Hin|_]; [contradiction|].
    now rewrite reverse_cons, IH.
Qed.

(** What a connected socket has been sent brings the loaded page to
    the server's state. *)
Lemma receive_of_run port rs :
  forall socket sent,
    io (run rs (constructor port)) !! socket = Some sent ->
    receive sent loaded
    = Page.mkClient (atoms (run rs (constructor port)))
                    (atomOrder (run rs (constructor port))).
Proof.
  induction rs as [|r rs IH] using rev_ind; intros socket sent Hsent.
  - cbn in Hsent. now rewrite lookup_empty in Hsent.
  - rewrite run_snoc in *. set (s := run rs (constructor port)) in *.
    destruct r as [atom|sock|sock].
    + change (handle s (Publish atom)) with (updateAtom atom s) in *.
      rewrite updateAtom_io, lookup_fmap in Hsent.
      destruct (io s !! socket) as [sent0|] eqn:Hs; [|discriminate].
      injection Hsent as <-.
      unfold receive. rewrite foldl_app. fold (receive sent0 loaded).
      rewrite (IH socket sent0 Hs).
      cbn [foldl Page.socket_on Page.atoms Page.atomOrder].
      now rewrite updateAtom_atoms.
    + cbn in Hsent. cbn [handle on_connection socket_emit set_io atoms atomOrder].
      destruct (decide (sock = socket)) as [->|Hne].
      * rewrite lookup_alter_eq, lookup_insert_eq in Hsent. injection Hsent as <-.
        cbn. f_equal. apply rebuild_from_values;
          [intros k a; apply own_id_of_run | apply no_proto_of_run].
      * rewrite lookup_alter_ne, lookup_insert_ne in Hsent by assumption.
        apply (IH socket sent Hsent).
    + cbn in Hsent. cbn [handle set_io atoms atomOrder].
      destruct (decide (sock = socket)) as [->|Hne].
      * now rewrite lookup_delete_eq in Hsent.
      * rewrite lookup_delete_ne in Hsent by assumption. apply (IH socket sent Hsent).
Qed.

End GraphRuns.

(** X1.  In every state the server reaches, an atom stored in [atoms]
    sits under its own [atomId]. *)
Theorem stored_under_own_id port rs k atom :
  VisualizationServer.atoms
    (VisualizationServer.run rs (VisualizationServer.constructor port)) !! k = Some atom ->
  VisualizationServer.atomId atom = k.
Proof. apply own_id_of_run. Qed.

(** X2.  Last write wins over a whole run: under each id other than
    [__proto__], [atoms] holds the last atom published with that id,
    and nothing when none was; under [__proto__] it holds nothing,
    whatever was published. *)
Theorem atoms_last_write_wins port rs k :
  VisualizationServer.atoms
    (VisualizationServer.run rs (VisualizationServer.constructor port)) !! k
  = if String.eqb k "__proto__" then None
    else last (filter (fun atom => VisualizationServer.atomId atom = k)
                      (VisualizationServer.published rs)).
Proof.
  rewrite atoms_of_run, foldl_assign_lookup, lookup_empty.
  destruct (String.eqb _ _); [reflexivity|]. now destruct (last _).
Qed.

(** X3.  [atomOrder] is the list of published ids with every repeat of
    an id after its first occurrence dropped. *)
Theorem atomOrder_first_occurrences port rs :
  VisualizationServer.atomOrder
    (VisualizationServer.run rs (VisualizationServer.constructor port))
  = reverse (remove_dups (reverse (VisualizationServer.atomId <$>
                                   VisualizationServer.published rs))).
Proof. apply atomOrder_of_run. Qed.

(** X4.  Snapshot plus live tail: for every socket connected to the
    server, the page that has handled, in order, all the messages sent
    to that socket since it connected holds the server's [atoms] and
    [atomOrder]. *)
Theorem observer_converges port rs socket sent :
  VisualizationServer.io
    (VisualizationServer.run rs (VisualizationServer.constructor port)) !! socket
  = Some sent ->
  PageView.receive sent PageView.loaded
  = VisualizationServer.Page.mkClient
      (VisualizationServer.atoms
         (VisualizationServer.run rs (VisualizationServer.constructor port)))
      (VisualizationServer.atomOrder
         (VisualizationServer.run rs (VisualizationServer.constructor port))).
Proof. apply receive_of_run. Qed.

(** X5.  Round trip of the snapshot endpoint: whatever the page held,
    [fetchAtoms] applied to the [/api/atoms] response of a server state
    leaves the page with exactly that state's [atoms] and
    [atomOrder]. *)
Theorem fetchAtoms_rebuilds_server_state port rs c :
  PageView.fetchAtoms
    (VisualizationServer.api_atoms
       (VisualizationServer.run rs (VisualizationServer.constructor port))) c
  = VisualizationServer.Page.mkClient
      (VisualizationServer.atoms
         (VisualizationServer.run rs (VisualizationServer.constructor port)))
      (VisualizationServer.atomOrder
         (VisualizationServer.run rs (VisualizationServer.constructor port))).
Proof.
  unfold PageView.fetchAtoms, VisualizationServer.api_atoms, VisualizationServer.snapshot.
  cbn [VisualizationServer.snap_atoms VisualizationServer.snap_atomOrder].
  f_equal. apply rebuild_from_values;
    [intros k a; apply own_id_of_run | apply no_proto_of_run].
Qed.

(** X6.  The ['atoms-update'] handler merges: under an id other than
    [__proto__] that occurs in the snapshot the page gets the
    snapshot's (last) atom with that id, under any other id it keeps
    what it had (an atom of the snapshot with the id [__proto__] is not
    stored); the order is replaced. *)
Theorem atoms_update_merges data c k :
  VisualizationServer.Page.atoms
    (VisualizationServer.Page.socket_on (VisualizationServer.atoms_update data) c) !! k
  = (if String.eqb k "__proto__" then VisualizationServer.Page.atoms c !! k
     else match last (filter (fun atom => VisualizationServer.atomId atom = k)
                             (VisualizationServer.snap_atoms data)) with
          | Some atom => Some atom
          | None => VisualizationServer.Page.atoms c !! k
          end) /\
  VisualizationServer.Page.atomOrder
    (VisualizationServer.Page.socket_on (VisualizationServer.atoms_update data) c)
  = VisualizationServer.snap_atomOrder data.
Proof. split; [apply foldl_assign_lookup | reflexivity]. Qed.

(* ===================================================================== *)
(** * 13. Further properties of the port prober and of the side channel  *)
(* ===================================================================== *)

(** X9.  On a port that [connect] accepts (an integer from 0 to
    65535), [canConnectToPort] returns; it makes one connection attempt
    to 127.0.0.1, answers [true] exactly when the socket connected, and
    on every path the last thing it does is destroy the socket.  On any
    other port [connect] throws and [canConnectToPort] throws with it:
    no attempt is made and nothing is destroyed. *)
Theorem canConnectToPort_true_iff_connected {H : Type} (env : Node.Env) (port : Z)
    (w : Node.World H) :
  let answer := Node.on_connect env (Node.count Node.is_connect (Node.trace w)) port in
  if Node.valid_port port
  then
    exists (b : bool) (seg : list Node.Effect),
      PortChecker.canConnectToPort env port w
      = JS.Returns b (Node.mkWorld (Node.heap w) (Node.trace w ++ seg)) /\
      (b = true <-> answer = Node.connect_ok) /\
      head seg = Some (Node.net_connect port "127.0.0.1") /\
      Node.count Node.is_connect seg = 1%nat /\
      last seg = Some (Node.net_destroy port)
  else
    PortChecker.canConnectToPort env port w = JS.Throws Node.bad_port w.
Proof.
  intros answer. destruct (Node.valid_port port) eqn:Hport.
  - rewrite (canConnectToPort_spec env port Hport). fold answer.
    eexists _, _. split; [reflexivity|].
    destruct answer; cbn; repeat split; congruence.
  - unfold PortChecker.canConnectToPort. now rewrite Hport.
Qed.

(** X10.  With a [maxAttempts] that 0 is not below (zero, a negative
    number, minus infinity or [NaN]), [waitForServerOnPort] makes no
    connection attempt and no wait, whatever the port: it writes its
    two lines and returns [false]. *)
Theorem waitForServerOnPort_no_attempts {H : Type} (env : Node.Env) (port : Z)
    (maxAttempts : option JS.Number) (intervalMs : option Z) (fuel : nat)
    (w : Node.World H) :
  JS.int_lt 0 (default (JS.of_Z 10) maxAttempts) = false ->
  (1 <= fuel)%nat ->
  PortChecker.waitForServerOnPort env fuel port maxAttempts intervalMs w
  = JS.Returns false
      (Node.mkWorld (Node.heap w)
         (Node.trace w ++
          [Node.console_error ("Waiting for server on port " +:+ pretty port +:+ "...");
           Node.console_error ("Timed out waiting for server on port " +:+ pretty port)])).
Proof.
  intros Hmax Hfuel. destruct fuel as [|fuel]; [lia|].
  unfold PortChecker.waitForServerOnPort. cbn [PortChecker.wait_loop].
  rewrite Hmax. js_eval. now rewrite <- app_assoc.
Qed.

Section SideChannel.
Import JS Node WebSocketServer.

Lemma forEach_send (message : string) (cs : list Client) :
  forall w : World Instance,
    forEach cs (fun client =>
      if bool_decide (readyState client = 1)
      then effect (ws_send (client_id client) message)
      else ret tt) w
    = Returns tt
        (mkWorld (heap w)
           (trace w ++
            ((fun client => ws_send (client_id client) message)
               <$> filter (fun client => readyState client = 1) cs))).
Proof.
  induction cs as [|c cs IH]; intros w.
  - cbn. rewrite app_nil_r. now destruct w.
  - cbn [forEach]. unfold bind at 1. rewrite filter_cons.
    case_bool_decide as Hopen.
    + rewrite decide_True by assumption. cbn -[filter]. rewrite IH. cbn -[filter].
      now rewrite <- app_assoc.
    + rewrite decide_False by assumption. cbn -[filter]. apply IH.
Qed.

End SideChannel.

(** X11.  [sendMessage] sends one and the same text to exactly the
    clients whose [readyState] is 1 (open), in the order of the set,
    sends nothing to the others, and leaves the instance as it was;
    with no client it does nothing. *)
Theorem sendMessage_reaches_open_clients (type data : string)
    (w : Node.World WebSocketServer.Instance) :
  exists (message : string) (w' : Node.World WebSocketServer.Instance),
    WebSocketServer.sendMessage type data w = JS.Returns tt w' /\
    Node.heap w' = Node.heap w /\
    Node.trace w' =
      Node.trace w ++
      ((fun client => Node.ws_send (WebSocketServer.client_id client) message)
         <$> filter (fun client => WebSocketServer.readyState client = 1)
                    (WebSocketServer.clients (Node.heap w))).
Proof.
  eexists _. unfold WebSocketServer.sendMessage, JS.bind, JS.gets.
  case_bool_decide as Hnone.
  - exists w. apply nil_length_inv in Hnone. rewrite Hnone. cbn.
    now rewrite app_nil_r.
  - rewrite forEach_send. eexists. now repeat split.
Qed.

(** X12.  On an instance that holds no server yet, [init] followed by
    [close] never throws: after an [init] that returned [true] the
    [close] closes the server just created (once), after one that
    returned [false] it does nothing. *)
Theorem close_after_init (env : Node.Env) (w : Node.World WebSocketServer.Instance) :
  WebSocketServer.wss (Node.heap w) = None ->
  exists (b : bool) (w1 w2 : Node.World WebSocketServer.Instance),
    WebSocketServer.init env w = JS.Returns b w1 /\
    WebSocketServer.close w1 = JS.Returns tt w2 /\
    Node.heap w2 = Node.heap w1 /\
    Node.trace w2 = Node.trace w1 ++ (if b then [Node.ws_close] else []).
Proof.
  intros Hnull.
  destruct (Node.valid_port (WebSocketServer.port (Node.heap w))) eqn:Hport.
  2: { pose proof (isPortAvailable_invalid env _ w Hport) as Hp.
       unfold WebSocketServer.init, JS.try_catch, JS.bind at 1 2, JS.gets.
       rewrite Hp. eexists false, _, _. split; [reflexivity|]. js_eval. rewrite Hnull.
       js_eval. rewrite app_nil_r. now repeat split. }
  destruct (isPortAvailable_cases env (WebSocketServer.port (Node.heap w)) w Hport)
    as [[_ Hp]|[[_ Hp]|(code & _ & _ & Hp)]].
  all: unfold WebSocketServer.init, JS.try_catch, JS.bind at 1 2, JS.gets;
    rewrite Hp; cbn [negb].
  2: { eexists false, _, _. split; [reflexivity|]. js_eval. rewrite Hnull.
       js_eval. rewrite app_nil_r. now repeat split. }
  all: unfold WebSocketServer.new_WSServer, JS.bind, JS.gets, Node.effect, JS.modify;
    cbn [Node.trace Node.heap];
    match goal with |- context [Node.on_ws ?e ?n ?p] =>
      destruct (Node.on_ws e n p) as [err|] eqn:Hws end.
  all: js_eval.
  all: try (eexists true, _, _; split; [reflexivity|]; js_eval; now repeat split).
  all: eexists false, _, _; (split; [reflexivity|]); js_eval; rewrite Hnull; js_eval;
    rewrite app_nil_r; now repeat split.
Qed.

(* ===================================================================== *)
(** * 14. Further properties of the supervisor                            *)
(* ===================================================================== *)

Section Guard.
Import JS Node Launcher Traces.
Context (env : Env).

Lemma kills_guarded_nil ps t : kills_guarded ps t [].
Proof. intros [|e s1] c r s2 Heq; discriminate. Qed.

Lemma kills_guarded_log ps t line : kills_guarded ps t [console_error line].
Proof. intros [|e [|e' s1]] c r s2 Heq; discriminate. Qed.

Lemma kills_guarded_app ps t seg1 seg2 :
  kills_guarded ps t seg1 ->
  kills_guarded ps (t ++ seg1) seg2 ->
  kills_guarded ps t (seg1 ++ seg2).
Proof.
  intros H1 H2 s1 c r s2 Heq.
  apply app_eq_app in Heq as [l [[-> Heq]|[-> ->]]].
  - destruct l as [|e l].
    + rewrite app_nil_r in H2. cbn in Heq. subst seg2.
      specialize (H2 [] c r s2 eq_refl). now rewrite app_nil_r in H2.
    + injection Heq as <- ->. apply (H1 s1 c r l eq_refl).
  - specialize (H2 l c r s2 eq_refl). now rewrite app_assoc.
Qed.

Lemma terminate_guarded (ps : list ProcessInfo) (p : ProcessInfo) (w : World Heap) :
  p ∈ ps ->
  exists (w' : World Heap) (seg : list Effect),
    terminate env p w = Returns tt w' /\
    heap w' = heap w /\
    trace w' = trace w ++ seg /\
    kills_guarded ps (trace w) seg.
Proof.
  intros Hp. unfold terminate, try_catch, bind at 1, gets.
  destruct (killed (trace w) (process p)) eqn:Hk; cbn [negb].
  - exists w, []. rewrite app_nil_r.
    split; [reflexivity|]. split; [reflexivity|]. split; [reflexivity|].
    apply kills_guarded_nil.
  - unfold kill, bind, gets, effect, modify, log. js_eval.
    destruct (on_kill env (count is_kill (trace w)) (process p)) eqn:Hr; js_eval.
    all: eexists _, _; split; [reflexivity|]; js_eval.
    all: split; [reflexivity|]; split; [rewrite <- app_assoc; reflexivity|].
    all: intros [|x [|x' [|x'' s1]]] c r s2 Heq; cbn in Heq; simplify_eq.
    all: rewrite app_nil_r; eauto.
Qed.

Lemma forEach_terminate_guarded (ps : list ProcessInfo) (qs : list ProcessInfo) :
  (forall q, q ∈ qs -> q ∈ ps) ->
  forall w : World Heap,
    exists (w' : World Heap) (seg : list Effect),
      forEach qs (terminate env) w = Returns tt w' /\
      heap w' = heap w /\
      trace w' = trace w ++ seg /\
      kills_guarded ps (trace w) seg.
Proof.
  induction qs as [|q qs IH]; intros Hsub w.
  - exists w, []. rewrite app_nil_r.
    split; [reflexivity|]. split; [reflexivity|]. split; [reflexivity|].
    apply kills_guarded_nil.
  - destruct (terminate_guarded ps q w) as (w1 & seg1 & Hrun1 & Hheap1 & Htrace1 & Hg1);
      [apply Hsub; left|].
    destruct (IH (fun x Hx => Hsub x (list_elem_of_further _ _ _ Hx)) w1)
      as (w' & seg2 & Hrun2 & Hheap2 & Htrace2 & Hg2).
    exists w', (seg1 ++ seg2).
    split; [cbn [forEach]; unfold bind; now rewrite Hrun1|].
    split; [congruence|].
    split; [now rewrite Htrace2, Htrace1, app_assoc|].
    apply kills_guarded_app; [exact Hg1 | now rewrite <- Htrace1].
Qed.

Lemma cleanup_guarded (fuel : nat) (w : World Heap) :
  (2 <= fuel)%nat ->
  exists (w' : World Heap) (seg : list Effect),
    cleanup env fuel w = Exits 0 w' /\
    trace w' = trace w ++ seg /\
    kills_guarded (processes (heap w)) (trace w) seg.
Proof.
  intros Hfuel. destruct fuel as [|[|fuel]]; [lia | lia |].
  cbn [cleanup]. unfold bind at 1, log, effect, modify.
  set (line := console_error "Shutting down all processes...").
  set (w0 := mkWorld (heap w) (trace w ++ [line])).
  unfold bind at 1, gets. cbn [heap w0].
  destruct (forEach_terminate_guarded (processes (heap w)) (processes (heap w))
              (fun q Hq => Hq) w0)
    as (w1 & seg1 & Hrun1 & Hheap1 & Htrace1 & Hg1).
  unfold bind at 1. rewrite Hrun1.
  assert (Hg01 : kills_guarded (processes (heap w)) (trace w) ([line] ++ seg1)).
  { apply kills_guarded_app; [apply kills_guarded_log | exact Hg1]. }
  unfold process_exit, bind at 1 2, gets. rewrite Hheap1. cbn [heap w0].
  destruct (exiting (heap w)) eqn:Hex.
  - exists w1, ([line] ++ seg1). split; [reflexivity|]. split; [|exact Hg01].
    rewrite Htrace1. unfold w0. cbn [trace]. now rewrite <- app_assoc.
  - unfold bind at 1, update, modify.
    set (w2 := mkWorld (set_exiting (heap w1)) (trace w1)).
    unfold bind at 1, log, effect, modify. fold line.
    set (w3 := mkWorld (heap w2) (trace w2 ++ [line])).
    unfold bind at 1, gets.
    assert (Hps : processes (heap w3) = processes (heap w)).
    { unfold w3, w2. cbn. now rewrite Hheap1. }
    rewrite Hps.
    destruct (forEach_terminate_guarded (processes (heap w)) (processes (heap w))
                (fun q Hq => Hq) w3)
      as (w4 & seg2 & Hrun2 & Hheap2 & Htrace2 & Hg2).
    unfold bind at 1. rewrite Hrun2.
    unfold bind at 1 2, gets. rewrite Hheap2. cbn.
    assert (Ht3 : trace w3 = trace w ++ ([line] ++ seg1) ++ [line]).
    { unfold w3, w2. cbn [trace heap]. rewrite Htrace1. unfold w0. cbn [trace].
      now rewrite <- !app_assoc. }
    exists w4, ((([line] ++ seg1) ++ [line]) ++ seg2).
    split; [reflexivity|].
    split; [rewrite Htrace2, Ht3; now rewrite <- !app_assoc|].
    apply kills_guarded_app.
    + apply kills_guarded_app; [exact Hg01 | apply kills_guarded_log].
    + rewrite Ht3 in Hg2. exact Hg2.
Qed.

End Guard.

(** X13.  [cleanup] never calls [kill] on a child that is not in
    [processes], and never on a child whose [killed] flag is set at the
    time of the call: a child that was signalled is not signalled
    again. *)
Theorem cleanup_kills_only_tracked_unflagged (env : Node.Env) (fuel : nat)
    (w : Node.World Launcher.Heap) :
  (2 <= fuel)%nat ->
  exists (w' : Node.World Launcher.Heap) (seg : list Node.Effect),
    Launcher.cleanup env fuel w = JS.Exits 0 w' /\
    Node.trace w' = Node.trace w ++ seg /\
    (forall s1 c r s2,
       seg = s1 ++ Node.child_kill c r :: s2 ->
       (exists p, p ∈ Launcher.processes (Node.heap w) /\ Launcher.process p = c) /\
       Launcher.killed (Node.trace w ++ s1) c = false).
Proof. apply cleanup_guarded. Qed.

(** X14.  [launchVisualizationServer] always returns.  It returns a
    child exactly when the port is one that [listen] accepts, the probe
    did not answer [EADDRINUSE] and the fork did not throw; that child
    is a fresh handle, it is pushed on [processes] as "Visualization
    server" and gets the visualization handlers.  Otherwise it returns
    [null] with the module state untouched; when the port is in use or
    is refused by [listen] nothing is forked, and in the latter case
    nothing is bound either. *)
Theorem launchVisualizationServer_spawns_iff_port_free (env : Node.Env)
    (argv : Launcher.ArgvOptions) (w : Node.World Launcher.Heap) :
  let answer :=
    Node.on_listen env (Node.count Node.is_listen (Node.trace w)) (Launcher.port argv) in
  let forks := Node.count Node.is_fork (Node.trace w) in
  exists (r : option nat) (w' : Node.World Launcher.Heap),
    Launcher.launchVisualizationServer env argv w = JS.Returns r w' /\
    (is_Some r <->
     Node.valid_port (Launcher.port argv) = true /\
     answer <> Node.listen_error (Some "EADDRINUSE") /\
     Node.on_fork env forks "./visualize.js" = None) /\
    (Node.valid_port (Launcher.port argv) = false \/
     answer = Node.listen_error (Some "EADDRINUSE") ->
     Node.count Node.is_fork (Node.trace w') = forks) /\
    (Node.valid_port (Launcher.port argv) = false ->
     Node.count Node.is_listen (Node.trace w')
     = Node.count Node.is_listen (Node.trace w)) /\
    match r with
    | Some child =>
        child = forks /\
        Node.heap w'
        = Launcher.attach child Launcher.visualizerProcess_on
            (Launcher.push (Launcher.mkProcessInfo child "Visualization server")
               (Node.heap w))
    | None => Node.heap w' = Node.heap w
    end.
Proof.
  intros answer forks.
  unfold Launcher.launchVisualizationServer, JS.try_catch, JS.bind at 1.
  destruct (Node.valid_port (Launcher.port argv)) eqn:Hport.
  2: { rewrite (isPortAvailable_invalid env _ w Hport).
       eexists None, _. split; [reflexivity|]. js_eval.
       rewrite !count_app, !count_singleton. cbn [Node.is_fork Node.is_listen].
       fold forks.
       split; [split; [intros [x Hx]; discriminate | intros [? _]; discriminate]|].
       split; [intros _; lia|]. split; [intros _; lia | reflexivity]. }
  destruct (isPortAvailable_cases env (Launcher.port argv) w Hport)
    as [[Ha Hp]|[[Ha Hp]|(code & Hcode & Ha & Hp)]]; rewrite Hp; cbn [negb];
    fold answer in Ha.
  2: { eexists None, _. split; [reflexivity|]. js_eval.
       rewrite !count_app, !count_singleton. cbn [Node.is_fork]. fold forks.
       split; [split; [intros [x Hx]; discriminate
                      | intros (_ & Hne & _); contradiction]|].
       split; [intros _; lia|]. split; [discriminate | reflexivity]. }
  all: unfold Launcher.fork, JS.bind, JS.gets, Node.effect, JS.modify;
    cbn [Node.trace Node.heap];
    rewrite ?count_app, ?count_singleton; cbn [Node.is_fork];
    rewrite ?Nat.add_0_r; fold forks;
    destruct (Node.on_fork env forks "./visualize.js") as [err|] eqn:Hfork.
  all: js_eval; eexists _, _; (split; [reflexivity|]); js_eval.
  all: assert (Hne : answer <> Node.listen_error (Some "EADDRINUSE"))
    by (rewrite Ha; congruence).
  all: split;
    [ split; [ intros [x Hx]; try discriminate; now repeat split
             | intros (_ & _ & Hnone); try discriminate; eauto ]
    | split; [ intros [Hbad|Hbad]; [discriminate | contradiction]
             | split; [discriminate | now repeat split] ] ].
Qed.

(** The launcher when [main] has returned. *)
Lemma main_returns (env : Node.Env) (argv : Launcher.ArgvOptions)
    (fuel : nat) (w : Node.World Launcher.Heap) :
  Launcher.main env argv fuel Launcher.initial = JS.Returns tt w ->
  Launcher.exiting (Node.heap w) = false /\
  Node.count Node.is_kill (Node.trace w) = 0%nat /\
  Launcher.listeners (Node.heap w) !! 0%nat = Some Launcher.mcpProcess_on /\
  (Launcher.processes (Node.heap w) = [Launcher.mkProcessInfo 0 "MCP server"] \/
   (Launcher.visualize argv = true /\
    Launcher.processes (Node.heap w)
    = [Launcher.mkProcessInfo 0 "MCP server";
       Launcher.mkProcessInfo 1 "Visualization server"] /\
    Launcher.listeners (Node.heap w) !! 1%nat = Some Launcher.visualizerProcess_on)) /\
  (Launcher.visualize argv = false ->
   Launcher.processes (Node.heap w) = [Launcher.mkProcessInfo 0 "MCP server"] /\
   Node.count Node.is_listen (Node.trace w) = 0%nat).
Proof.
  unfold Launcher.main, Launcher.launchMcpServer, Launcher.launchVisualizationServer,
    Launcher.fork, PortChecker.isPortAvailable, JS.try_catch, JS.bind, JS.gets,
    Node.log, Node.effect, Node.update, JS.modify, JS.ret, JS.throw.
  cbn -[String.append pretty Launcher.cleanup].
  destruct (Node.on_fork env 0 "./index.js") as [e|];
    cbn -[String.append pretty Launcher.cleanup].
  { intros Hmain. exfalso. destruct fuel as [|[|fuel]].
    - discriminate.
    - cbn in Hmain. discriminate.
    - destruct (cleanup_spec env (S (S fuel)) (Node.mkWorld (Launcher.mkHeap [] ∅ false)
        [Node.console_error "Launching Atom of Thoughts"; Node.child_fork "./index.js" [];
         Node.console_error ("Fatal error: " +:+ Node.show_error e)]))
        as (w' & seg & Hrun & _); [lia|].
      rewrite Hrun in Hmain. discriminate. }
  destruct (Launcher.visualize argv) eqn:Hvis;
    cbn -[String.append pretty Launcher.cleanup].
  2: { intros [= <-]. cbn. repeat split; auto. }
  destruct (Node.valid_port (Launcher.port argv));
    cbn -[String.append pretty Launcher.cleanup].
  2: { intros [= <-]. cbn. repeat split; auto; discriminate. }
  destruct (Node.on_listen env 0 (Launcher.port argv)) as [|code];
    cbn -[String.append pretty Launcher.cleanup].
  2: { case_bool_decide; cbn -[String.append pretty Launcher.cleanup].
       - intros [= <-]. cbn. repeat split; auto; discriminate.
       - destruct (Node.on_fork env 1 "./visualize.js") as [e|];
           cbn -[String.append pretty Launcher.cleanup];
           intros [= <-]; cbn; repeat split; auto; try discriminate;
           try (right; now repeat split). }
  destruct (Node.on_fork env 1 "./visualize.js") as [e|];
    cbn -[String.append pretty Launcher.cleanup];
    intros [= <-]; cbn; repeat split; auto; try discriminate;
    try (right; now repeat split).
Qed.

(** X15.  When [main] returns (from the start of the process), the
    launcher is not exiting and has called no [kill]; child 0 is
    tracked as "MCP server" with the MCP handlers; the only other child
    there can be is child 1, tracked as "Visualization server" with the
    visualization handlers, and only when [--visualize] was given;
    without [--visualize] the port is never probed. *)
Theorem main_tracks_children (env : Node.Env) (argv : Launcher.ArgvOptions)
    (fuel : nat) (w : Node.World Launcher.Heap) :
  Launcher.main env argv fuel Launcher.initial = JS.Returns tt w ->
  Launcher.exiting (Node.heap w) = false /\
  Node.count Node.is_kill (Node.trace w) = 0%nat /\
  Launcher.listeners (Node.heap w) !! 0%nat = Some Launcher.mcpProcess_on /\
  (Launcher.processes (Node.heap w) = [Launcher.mkProcessInfo 0 "MCP server"] \/
   (Launcher.visualize argv = true /\
    Launcher.processes (Node.heap w)
    = [Launcher.mkProcessInfo 0 "MCP server";
       Launcher.mkProcessInfo 1 "Visualization server"] /\
    Launcher.listeners (Node.heap w) !! 1%nat = Some Launcher.visualizerProcess_on)) /\
  (Launcher.visualize argv = false ->
   Launcher.processes (Node.heap w) = [Launcher.mkProcessInfo 0 "MCP server"] /\
   Node.count Node.is_listen (Node.trace w) = 0%nat).
Proof. apply main_returns. Qed.

(** X16.  When forking the MCP server throws, [main]'s [.catch] writes
    "Fatal error" and runs [cleanup]: with nothing tracked there is no
    [kill], the visualization port is never probed, and the process
    ends with exit code 0. *)
Theorem main_exits_0_when_mcp_fork_throws (env : Node.Env)
    (argv : Launcher.ArgvOptions) (fuel : nat) (e : JS.Error) :
  (2 <= fuel)%nat ->
  Node.on_fork env 0 "./index.js" = Some e ->
  Launcher.main env argv fuel Launcher.initial
  = JS.Exits 0
      (Node.mkWorld (Launcher.mkHeap [] ∅ true)
         [Node.console_error "Launching Atom of Thoughts";
          Node.child_fork "./index.js" [];
          Node.console_error ("Fatal error: " +:+ Node.show_error e);
          Node.console_error "Shutting down all processes...";
          Node.console_error "Shutting down all processes..."]).
Proof.
  intros Hfuel Hfork. destruct fuel as [|[|fuel]]; [lia | lia |].
  unfold Launcher.main, Launcher.launchMcpServer, Launcher.fork, JS.try_catch,
    JS.bind, JS.gets, Node.log, Node.effect, Node.update, JS.modify, JS.ret, JS.throw.
  cbn -[String.append pretty]. rewrite Hfork. reflexivity.
Qed.

(** X18.  [SIGINT], [SIGTERM] and an ['error'] of the child that
    carries the MCP handlers each run [cleanup]: the process ends with
    exit code 0 and every tracked child has had [kill] called on it
    (during this teardown when its flag was unset). *)
Theorem signals_and_mcp_error_tear_down (env : Node.Env) (fuel : nat)
    (w : Node.World Launcher.Heap) (ev : Launcher.Event) :
  (2 <= fuel)%nat ->
  (ev = Launcher.SIGINT \/ ev = Launcher.SIGTERM \/
   exists child err,
     ev = Launcher.child_error child err /\
     Launcher.listeners (Node.heap w) !! child = Some Launcher.mcpProcess_on) ->
  exists (w' : Node.World Launcher.Heap) (seg : list Node.Effect),
    Launcher.on_event env fuel ev w = JS.Exits 0 w' /\
    Node.trace w' = Node.trace w ++ seg /\
    (forall p, p ∈ Launcher.processes (Node.heap w) ->
       Launcher.killed (Node.trace w) (Launcher.process p) = false ->
       exists r, Node.child_kill (Launcher.process p) r ∈ seg) /\
    (forall p, p ∈ Launcher.processes (Node.heap w) ->
       exists r, Node.child_kill (Launcher.process p) r ∈ Node.trace w').
Proof.
  intros Hfuel [->|[->|(child & err & -> & Hon)]].
  1, 2: destruct (cleanup_kills_all env fuel w Hfuel)
          as (w' & seg & Hrun & Htrace & Hnew & _ & Hall);
        exists w', seg; now repeat split.
  unfold Launcher.on_event, JS.bind at 1, JS.gets. rewrite Hon.
  unfold JS.bind at 1, Node.log, Node.effect, JS.modify.
  set (line := Node.console_error _).
  set (w0 := Node.mkWorld (Node.heap w) (Node.trace w ++ [line])).
  destruct (cleanup_kills_all env fuel w0 Hfuel)
    as (w' & seg & Hrun & Htrace & Hnew & _ & Hall).
  exists w', (line :: seg).
  split; [exact Hrun|].
  split; [rewrite Htrace; unfold w0; cbn [Node.trace]; now rewrite <- app_assoc|].
  split; [|exact Hall].
  intros p Hp Hflag. destruct (Hnew p Hp) as [r Hr].
  - unfold w0. cbn [Node.trace]. now rewrite killed_app, Hflag.
  - exists r. now right.
Qed.

(** X19.  From the start of the process to the teardown: once [main]
    has returned, an exit of the MCP server (child 0), with any code
    and signal, ends the launcher with exit code 0 after [kill] has
    been called, in this teardown, on every child [main] tracked. *)
Theorem mcp_exit_after_main_kills_every_child (env : Node.Env)
    (argv : Launcher.ArgvOptions) (fuel : nat) (w : Node.World Launcher.Heap)
    (code : option Z) (signal : option string) :
  (2 <= fuel)%nat ->
  Launcher.main env argv fuel Launcher.initial = JS.Returns tt w ->
  exists (w' : Node.World Launcher.Heap) (seg : list Node.Effect),
    Launcher.on_event env fuel (Launcher.child_exit 0 code signal) w = JS.Exits 0 w' /\
    Node.trace w' = Node.trace w ++ seg /\
    (forall p, p ∈ Launcher.processes (Node.heap w) ->
       exists r, Node.child_kill (Launcher.process p) r ∈ seg).
Proof.
  intros Hfuel Hmain.
  destruct (main_returns env argv fuel w Hmain) as (_ & Hnokill & Hon & _).
  unfold Launcher.on_event, JS.bind at 1, JS.gets. rewrite Hon.
  unfold JS.bind at 1, Node.log, Node.effect, JS.modify.
  set (line := Node.console_error _).
  set (w0 := Node.mkWorld (Node.heap w) (Node.trace w ++ [line])).
  destruct (cleanup_kills_all env fuel w0 Hfuel)
    as (w' & seg & Hrun & Htrace & _ & Hfirst & _).
  exists w', (line :: seg).
  split; [exact Hrun|].
  split; [rewrite Htrace; unfold w0; cbn [Node.trace]; now rewrite <- app_assoc|].
  intros p Hp. destruct (Hfirst) with (p := p) as [r Hr].
  - unfold w0. cbn [Node.trace]. rewrite count_app, count_singleton, Hnokill.
    reflexivity.
  - exact Hp.
  - exists r. now right.
Qed.

(* ===================================================================== *)
(** * 15. Properties of visualize.ts                                      *)
(* ===================================================================== *)


(* ===================================================================== *)
(** * 16. The further properties at work                                  *)
(* ===================================================================== *)

Example session_order_and_atoms :
  VisualizationServer.snapshot
    (VisualizationServer.run MoreSamples.session (VisualizationServer.constructor None))
  = VisualizationServer.mkSnapshot [Samples.a1_revised; Samples.a2] ["a1"; "a2"].
Proof. vm_compute. reflexivity. Qed.

Lemma stored_under_own_id_witness :
  VisualizationServer.atoms
    (VisualizationServer.run MoreSamples.session (VisualizationServer.constructor None))
    !! "a2" = Some Samples.a2 /\
  VisualizationServer.atomId Samples.a2 = "a2".
Proof.
  assert (Hlook : VisualizationServer.atoms
            (VisualizationServer.run MoreSamples.session
               (VisualizationServer.constructor None)) !! "a2" = Some Samples.a2).
  { vm_compute. reflexivity. }
  split; [exact Hlook|].
  exact (stored_under_own_id None MoreSamples.session "a2" Samples.a2 Hlook).
Defined.

Lemma observer_converges_witness :
  VisualizationServer.io
    (VisualizationServer.run MoreSamples.session (VisualizationServer.constructor None))
    !! 7%nat = Some MoreSamples.session_sent /\
  PageView.receive MoreSamples.session_sent PageView.loaded
  = VisualizationServer.Page.mkClient
      (VisualizationServer.atoms
         (VisualizationServer.run MoreSamples.session
            (VisualizationServer.constructor None)))
      ["a1"; "a2"].
Proof.
  assert (Hsent : VisualizationServer.io
            (VisualizationServer.run MoreSamples.session
               (VisualizationServer.constructor None)) !! 7%nat
          = Some MoreSamples.session_sent).
  { vm_compute. reflexivity. }
  split; [exact Hsent|].
  exact (observer_converges None MoreSamples.session 7%nat MoreSamples.session_sent Hsent).
Defined.

Lemma waitForServerOnPort_no_attempts_witness :
  JS.int_lt 0 (default (JS.of_Z 10) (Some (JS.of_Z (-3)))) = false /\ (1 <= 1)%nat /\
  PortChecker.waitForServerOnPort Samples.env 1 3000 (Some (JS.of_Z (-3))) None
    (Node.mkWorld tt [])
  = JS.Returns false
      (Node.mkWorld tt
         [Node.console_error "Waiting for server on port 3000...";
          Node.console_error "Timed out waiting for server on port 3000"]).
Proof.
  assert (H1 : JS.int_lt 0 (default (JS.of_Z 10) (Some (JS.of_Z (-3)))) = false)
    by reflexivity.
  assert (H2 : (1 <= 1)%nat) by lia.
  split; [exact H1|]. split; [exact H2|].
  exact (waitForServerOnPort_no_attempts Samples.env 3000 (Some (JS.of_Z (-3))) None 1
           (Node.mkWorld tt []) H1 H2).
Defined.

Lemma close_after_init_witness :
  WebSocketServer.wss (WebSocketServer.mkInstance None [] 8090) = None /\
  exists (b : bool) (w1 w2 : Node.World WebSocketServer.Instance),
    WebSocketServer.init Samples.env
      (Node.mkWorld (WebSocketServer.mkInstance None [] 8090) []) = JS.Returns b w1 /\
    WebSocketServer.close w1 = JS.Returns tt w2.
Proof.
  split; [reflexivity|].
  destruct (close_after_init Samples.env
              (Node.mkWorld (WebSocketServer.mkInstance None [] 8090) []) eq_refl)
    as (b & w1 & w2 & Hinit & Hclose & _).
  exists b, w1, w2. now split.
Defined.

Lemma cleanup_kills_only_tracked_unflagged_witness :
  (2 <= 2)%nat /\
  exists w' : Node.World Launcher.Heap,
    Launcher.cleanup Samples.env 2 Samples.launched = JS.Exits 0 w'.
Proof.
  assert (H2 : (2 <= 2)%nat) by lia.
  split; [exact H2|].
  destruct (cleanup_kills_only_tracked_unflagged Samples.env 2 Samples.launched H2)
    as (w' & seg & Hrun & _).
  exists w'. exact Hrun.
Defined.

Lemma main_tracks_children_witness :
  Launcher.main Samples.env Samples.argv 2 Launcher.initial
  = JS.Returns tt Samples.launched /\
  Launcher.listeners (Node.heap Samples.launched) !! 0%nat = Some Launcher.mcpProcess_on.
Proof.
  assert (Hmain : Launcher.main Samples.env Samples.argv 2 Launcher.initial
                  = JS.Returns tt Samples.launched).
  { vm_compute. reflexivity. }
  split; [exact Hmain|].
  exact (proj1 (proj2 (proj2 (main_tracks_children Samples.env Samples.argv 2
                                Samples.launched Hmain)))).
Defined.

Lemma main_exits_0_when_mcp_fork_throws_witness :
  (2 <= 2)%nat /\
  Node.on_fork MoreSamples.env_no_fork 0 "./index.js"
  = Some (JS.OtherError "spawn ENOENT") /\
  exists w' : Node.World Launcher.Heap,
    Launcher.main MoreSamples.env_no_fork Samples.argv 2 Launcher.initial
    = JS.Exits 0 w'.
Proof.
  assert (H2 : (2 <= 2)%nat) by lia.
  split; [exact H2|]. split; [reflexivity|].
  eexists.
  exact (main_exits_0_when_mcp_fork_throws MoreSamples.env_no_fork Samples.argv 2
           (JS.OtherError "spawn ENOENT") H2 eq_refl).
Defined.

Lemma signals_and_mcp_error_tear_down_witness :
  (2 <= 2)%nat /\
  exists w' : Node.World Launcher.Heap,
    Launcher.on_event Samples.env 2 Launcher.SIGTERM Samples.launched = JS.Exits 0 w' /\
    exists r, Node.child_kill 1 r ∈ Node.trace w'.
Proof.
  assert (H2 : (2 <= 2)%nat) by lia.
  split; [exact H2|].
  destruct (signals_and_mcp_error_tear_down Samples.env 2 Samples.launched
              Launcher.SIGTERM H2 (or_intror (or_introl eq_refl)))
    as (w' & seg & Hrun & _ & _ & Hall).
  exists w'. split; [exact Hrun|].
  apply (Hall (Launcher.mkProcessInfo 1 "Visualization server")).
  rewrite (proj1 launched_tracks_both_children). right. left.
Defined.

Lemma mcp_exit_after_main_witness :
  (2 <= 2)%nat /\
  Launcher.main Samples.env Samples.argv 2 Launcher.initial
  = JS.Returns tt Samples.launched /\
  exists (w' : Node.World Launcher.Heap) (seg : list Node.Effect),
    Launcher.on_event Samples.env 2 (Launcher.child_exit 0 (Some 1) None) Samples.launched
    = JS.Exits 0 w' /\
    exists r, Node.child_kill 1 r ∈ seg.
Proof.
  assert (H2 : (2 <= 2)%nat) by lia.
  assert (Hmain : Launcher.main Samples.env Samples.argv 2 Launcher.initial
                  = JS.Returns tt Samples.launched).
  { vm_compute. reflexivity. }
  split; [exact H2|]. split; [exact Hmain|].
  destruct (mcp_exit_after_main_kills_every_child Samples.env Samples.argv 2
              Samples.launched (Some 1) None H2 Hmain)
    as (w' & seg & Hrun & _ & Hall).
  exists w', seg. split; [exact Hrun|].
  apply (Hall (Launcher.mkProcessInfo 1 "Visualization server")).
  rewrite (proj1 launched_tracks_both_children). right. left.
Defined.
